(** * The admin console front end: session handling, role gating and the
      organisation / user forms.

    The development embeds the React components of the console
    ([App.jsx], [Navigation.jsx], [api.js], [CreateOrgModal.jsx],
    [CreateUserModal.jsx], [UserManagementModal.jsx], [Dashboard.jsx]) as
    functions on an explicit world: the component's state, the browser's
    [localStorage], the default headers of the HTTP client and the list of
    requests that were issued.

    What the browser and the backend do (JSON parsing, URI encoding, the
    answers of the REST API, the user's answer to a confirmation prompt) is
    not code of the console; it is gathered in the class [Platform] and every
    statement holds for all platforms.

    A handler is a computation that may throw. An [async] handler is run to
    its end: the backend's answer to the request it awaits is there at once,
    and no other handler runs in between. A handler reads the state through
    the closure of the render that created it; that state is the argument
    [snap] of the handlers that read it. Calls of [console] and
    [e.preventDefault()] have no effect on the world and are left out. *)

From Stdlib Require Import ZArith NArith Lia Ascii String.
From stdpp Require Import base list strings gmap.

Local Open Scope N_scope.

(** ** JavaScript values *)

Module Js.

(** A JavaScript string is a sequence of UTF-16 code units. *)
Definition jsstring := list N.

(** An ASCII literal of the source, as code units. *)
Definition lit (s : string) : jsstring :=
  map N_of_ascii (list_ascii_of_string s).

(** The double quote, U+0022, for the template literals that contain one. *)
Definition dquote : jsstring := [34].

(** [WhiteSpace] and [LineTerminator] of ECMAScript, which is what
    [String.prototype.trim] strips: TAB, LF, VT, FF, CR, SP, NBSP, the
    Unicode space separators, LS, PS and the byte-order mark. *)
Definition is_white_space (c : N) : bool :=
  (9 <=? c) && (c <=? 13)
  || (c =? 32) || (c =? 160) || (c =? 5760)
  || (8192 <=? c) && (c <=? 8202)
  || (c =? 8232) || (c =? 8233) || (c =? 8239) || (c =? 8287)
  || (c =? 12288) || (c =? 65279).

Fixpoint trimStart (s : jsstring) : jsstring :=
  match s with
  | [] => []
  | c :: s' => if is_white_space c then trimStart s' else s
  end.

Definition trimEnd (s : jsstring) : jsstring :=
  rev (trimStart (rev s)).

Definition trim (s : jsstring) : jsstring := trimEnd (trimStart s).

(** The values that reach the console: [undefined] and what JSON carries.
    Numbers are the integers; nothing in the console computes with one. The
    text of a number, [Number::toString], is a matter of floating point
    arithmetic (exponent form from 10^21 on, the shortest digits that read
    back as the same number), which is not modelled: a number is kept with
    the text the engine prints for it. An object is its list of own
    properties, first binding first. *)
#[warnings="-register-all"]
Inductive JsValue : Type :=
  | VUndefined
  | VNull
  | VBool (b : bool)
  | VNum (z : Z) (text : jsstring)
  | VStr (s : jsstring)
  | VArr (elems : list JsValue)
  | VObj (fields : list (jsstring * JsValue)).

(** [ToBoolean]. *)
Definition truthy (v : JsValue) : bool :=
  match v with
  | VUndefined | VNull => false
  | VBool b => b
  | VNum z _ => negb (z =? 0)%Z
  | VStr s => negb (bool_decide (s = []))
  | VArr _ | VObj _ => true
  end.

Definition nullish (v : JsValue) : bool :=
  match v with
  | VUndefined | VNull => true
  | _ => false
  end.

(** [a || b]. *)
Definition js_or (a b : JsValue) : JsValue := if truthy a then a else b.

(** [v === 'literal']: strict equality with a string primitive. *)
Definition strict_eq_str (v : JsValue) (s : jsstring) : bool :=
  match v with
  | VStr t => bool_decide (t = s)
  | _ => false
  end.

(** The property names the console reads. None of them is a property that
    strings, arrays, numbers or booleans have of their own or inherit, so a
    read of one on such a value gives [undefined]. *)
Inductive PropName : Type :=
  | p_role | p_username | p_users | p_orgs | p_org_id | p_name
  | p_response | p_data | p_detail | p_msg.

Definition prop_key (p : PropName) : jsstring :=
  match p with
  | p_role => lit "role"
  | p_username => lit "username"
  | p_users => lit "users"
  | p_orgs => lit "orgs"
  | p_org_id => lit "org_id"
  | p_name => lit "name"
  | p_response => lit "response"
  | p_data => lit "data"
  | p_detail => lit "detail"
  | p_msg => lit "msg"
  end.

Fixpoint lookup_field (k : jsstring) (fs : list (jsstring * JsValue))
  : JsValue :=
  match fs with
  | [] => VUndefined
  | (k', v) :: fs' => if bool_decide (k' = k) then v else lookup_field k fs'
  end.

(** [v.p]. [None] is the [TypeError] of a read on [undefined] or [null]. *)
Definition get_prop (v : JsValue) (p : PropName) : option JsValue :=
  match v with
  | VUndefined | VNull => None
  | VObj fs => Some (lookup_field (prop_key p) fs)
  | _ => Some VUndefined
  end.

(** [v?.p]. *)
Definition opt_prop (v : JsValue) (p : PropName) : JsValue :=
  match get_prop v p with
  | Some x => x
  | None => VUndefined
  end.

Fixpoint join_with (sep : jsstring) (parts : list jsstring) : jsstring :=
  match parts with
  | [] => []
  | [p] => p
  | p :: ps => p ++ sep ++ join_with sep ps
  end.

(** [ToString]; a number is the text it is kept with, an array is its
    elements joined by commas, [undefined] and [null] elements giving the
    empty string. *)
Fixpoint to_string (v : JsValue) : jsstring :=
  match v with
  | VUndefined => lit "undefined"
  | VNull => lit "null"
  | VBool true => lit "true"
  | VBool false => lit "false"
  | VNum _ text => text
  | VStr s => s
  | VArr l =>
      join_with (lit ",")
        (map (fun x => if nullish x then [] else to_string x) l)
  | VObj _ => lit "[object Object]"
  end.

(** [Array.prototype.join] on the elements of an array. *)
Definition array_join (sep : jsstring) (l : list JsValue) : jsstring :=
  join_with sep (map (fun x => if nullish x then [] else to_string x) l).

(** The error object of a [TypeError]; it has no [response] property. *)
Definition TypeError : JsValue :=
  VObj [(lit "name", VStr (lit "TypeError"))].

End Js.
Import Js.

(** ** Outcomes, requests and the platform *)

(** A call returns a value or throws one. *)
Inductive Res (A : Type) : Type :=
  | Ret (a : A)
  | Throw (e : JsValue).
Arguments Ret {A} a.
Arguments Throw {A} e.

Inductive Method : Type := GET | POST | DELETE.

Inductive Body : Type :=
  | NoBody
  | JsonBody (v : JsValue)
  | FormBody (params : list (jsstring * jsstring)).

(** A request as the HTTP client sends it. *)
Record Request : Type := mkRequest {
  method : Method;
  url : jsstring;
  headers : gmap jsstring jsstring;
  body : Body
}.

(** The browser, the user in front of it and the backend.
    - [JSON_parse] throws on text that is not JSON;
    - [encodeURIComponent] converts its argument to a string and throws on
      a lone surrogate;
    - [API_BASE] is the configured base address;
    - [backend log req] is the answer to [req] after the requests of [log]:
      the response data, or the error the client rejects with;
    - [window_confirm msg] is the user's answer to the prompt [msg]. *)
Class Platform : Type := {
  JSON_parse : jsstring -> Res JsValue;
  encodeURIComponent : JsValue -> Res jsstring;
  API_BASE : jsstring;
  backend : list Request -> Request -> Res JsValue;
  window_confirm : jsstring -> bool
}.

(** What the components share: the browser's storage, the default headers
    of the HTTP client ([axios.defaults.headers.common]) and the requests
    issued so far, oldest first. *)
Record Env : Type := mkEnv {
  localStorage : gmap jsstring jsstring;
  axios_common : gmap jsstring jsstring;
  sent : list Request
}.

Definition set_localStorage (m : gmap jsstring jsstring) (e : Env) : Env :=
  {| localStorage := m; axios_common := axios_common e; sent := sent e |}.
Definition set_axios_common (m : gmap jsstring jsstring) (e : Env) : Env :=
  {| localStorage := localStorage e; axios_common := m; sent := sent e |}.
Definition set_sent (l : list Request) (e : Env) : Env :=
  {| localStorage := localStorage e; axios_common := axios_common e;
     sent := l |}.

(** The state of one mounted component together with the environment. *)
Record World (S : Type) : Type := mkWorld {
  comp : S;
  env : Env
}.
Arguments mkWorld {S} comp env.
Arguments comp {S} w.
Arguments env {S} w.

(** ** Computations: state and exceptions *)

Definition M (S A : Type) : Type := World S -> Res A * World S.

Definition ret {S A} (a : A) : M S A := fun w => (Ret a, w).

Definition bind {S A B} (m : M S A) (k : A -> M S B) : M S B :=
  fun w =>
    match m w with
    | (Ret a, w') => k a w'
    | (Throw e, w') => (Throw e, w')
    end.

Definition throw {S A} (e : JsValue) : M S A := fun w => (Throw e, w).

Definition of_res {S A} (r : Res A) : M S A := fun w => (r, w).

(** [v.p] as a computation. *)
Definition read_prop {S} (v : JsValue) (p : PropName) : M S JsValue :=
  match get_prop v p with
  | Some x => ret x
  | None => throw TypeError
  end.

(** [try { m } catch (err) { h err }]. *)
Definition try_catch {S A} (m : M S A) (h : JsValue -> M S A) : M S A :=
  fun w =>
    match m w with
    | (Ret a, w') => (Ret a, w')
    | (Throw e, w') => h e w'
    end.

(** [try { m } finally { f }]: [f] runs on both exits; what [m] returned or
    threw stands unless [f] throws. *)
Definition try_finally {S A} (m : M S A) (f : M S unit) : M S A :=
  fun w =>
    match m w with
    | (r, w') =>
        match f w' with
        | (Ret _, w'') => (r, w'')
        | (Throw e, w'') => (Throw e, w'')
        end
    end.

Definition modify {S} (f : S -> S) : M S unit :=
  fun w => (Ret tt, mkWorld (f (comp w)) (env w)).

Definition modify_env {S} (f : Env -> Env) : M S unit :=
  fun w => (Ret tt, mkWorld (comp w) (f (env w))).

Definition read_env {S A} (f : Env -> A) : M S A :=
  fun w => (Ret (f (env w)), w).

(** A component that receives functions from its parent runs in a world
    whose state is the pair of its own state and the parent's: [own] updates
    the first, [parent] runs a function of the parent on the second. *)
Definition own {S P} (f : S -> S) : M (S * P) unit :=
  modify (fun sp => (f (fst sp), snd sp)).

Definition parent {S P A} (m : M P A) : M (S * P) A :=
  fun w =>
    match m (mkWorld (snd (comp w)) (env w)) with
    | (r, w') => (r, mkWorld (fst (comp w), comp w') (env w'))
    end.

(** The notations [x ← m; k] and [m;; k] of the sequencing below. *)
#[global] Instance M_ret {S} : MRet (M S) := fun A => @ret S A.
#[global] Instance M_bind {S} : MBind (M S) := fun A B k m => bind m k.

(** ** api.js *)

Module Api.
Section WithPlatform.
Context {pf : Platform}.
Context {S : Type}.

(** [axios.defaults.headers.common["Authorization"] =
      token ? `Bearer ${token}` : ""]. *)
Definition setToken (token : JsValue) : M S unit :=
  modify_env (fun e =>
    set_axios_common
      (<[lit "Authorization" :=
           if truthy token then lit "Bearer " ++ to_string token else []]>
         (axios_common e)) e).

(** The HTTP client: a request carries the default headers, the headers
    given with the call taking precedence; it is recorded and answered by
    the backend. The value returned is the [data] of the response. *)
Definition axios_request (m : Method) (u : jsstring)
    (extra : gmap jsstring jsstring) (b : Body) : M S JsValue :=
  fun w =>
    let req := mkRequest m u (extra ∪ axios_common (env w)) b in
    (backend (sent (env w)) req,
     mkWorld (comp w) (set_sent (sent (env w) ++ [req]) (env w))).

Definition login (username password : jsstring) : M S JsValue :=
  axios_request POST (API_BASE ++ lit "/token")
    {[lit "Content-Type" := lit "application/x-www-form-urlencoded"]}
    (FormBody [(lit "username", username); (lit "password", password)]).

Definition listOrgs : M S JsValue :=
  axios_request GET (API_BASE ++ lit "/orgs") ∅ NoBody.

Definition createOrg (org_id org_name : JsValue) : M S JsValue :=
  axios_request POST (API_BASE ++ lit "/admin/orgs") ∅
    (JsonBody (VObj [(lit "org_id", org_id); (lit "org_name", org_name)])).

Definition createUser (org_id username password role : JsValue)
  : M S JsValue :=
  o ← of_res (encodeURIComponent org_id);
  axios_request POST (API_BASE ++ lit "/orgs/" ++ o ++ lit "/users") ∅
    (JsonBody (VObj [(lit "username", username);
                     (lit "password", password);
                     (lit "role", role)])).

Definition listUsers (org_id : JsValue) : M S JsValue :=
  o ← of_res (encodeURIComponent org_id);
  axios_request GET (API_BASE ++ lit "/orgs/" ++ o ++ lit "/users") ∅ NoBody.

Definition deleteUser (org_id username : JsValue) : M S JsValue :=
  o ← of_res (encodeURIComponent org_id);
  u ← of_res (encodeURIComponent username);
  axios_request DELETE
    (API_BASE ++ lit "/orgs/" ++ o ++ lit "/users/" ++ u) ∅ NoBody.

End WithPlatform.
End Api.

(** ** The browser's storage *)

Definition item (e : Env) (k : jsstring) : JsValue :=
  match localStorage e !! k with
  | Some s => VStr s
  | None => VNull
  end.

Section Storage.
Context {S : Type}.

(** [localStorage.getItem(k)]: the stored string, or [null]. *)
Definition getItem (k : jsstring) : M S JsValue :=
  read_env (fun e => item e k).

Definition removeItem (k : jsstring) : M S unit :=
  modify_env (fun e => set_localStorage (delete k (localStorage e)) e).

End Storage.

(** ** App.jsx *)

Module App.

Record State : Type := mkState {
  user : JsValue;
  loading : bool
}.

Definition initial : State := {| user := VNull; loading := true |}.

Definition setUser (v : JsValue) (s : State) : State :=
  {| user := v; loading := loading s |}.
Definition setLoading (b : bool) (s : State) : State :=
  {| user := user s; loading := b |}.

Section WithPlatform.
Context {pf : Platform}.

(** The effect run once when the application starts (the spec's
    [restore()]). *)
Definition restore : M State unit :=
  storedUser ← getItem (lit "user");
  storedToken ← getItem (lit "token");
  (if truthy storedUser && truthy storedToken then
     try_catch
       (parsedUser ← of_res (JSON_parse (to_string storedUser));
        modify (setUser parsedUser);;
        Api.setToken storedToken)
       (fun err =>
          removeItem (lit "user");;
          removeItem (lit "token"))
   else mret tt);;
  modify (setLoading false).

Definition handleLoginSuccess : M State unit :=
  storedUser ← getItem (lit "user");
  storedToken ← getItem (lit "token");
  if truthy storedUser && truthy storedToken then
    user ← of_res (JSON_parse (to_string storedUser));
    modify (setUser user);;
    Api.setToken storedToken
  else mret tt.

(** The spec's [logout()]. *)
Definition handleLogout : M State unit :=
  modify (setUser VNull);;
  removeItem (lit "user");;
  removeItem (lit "token");;
  Api.setToken VNull.

End WithPlatform.

(** What [App] renders. *)
Inductive Screen : Type :=
  | LoadingScreen
  | LoggedIn (u : JsValue)
  | LoginScreen.

Definition render (s : State) : Screen :=
  if loading s then LoadingScreen
  else if truthy (user s) then LoggedIn (user s)
  else LoginScreen.

End App.

(** ** Navigation.jsx *)

Module Navigation.

Record State : Type := mkState { menuOpen : bool }.

Definition setMenuOpen (b : bool) (s : State) : State :=
  {| menuOpen := b |}.

Section WithPlatform.
Context {pf : Platform}.
Context {P : Type}.

Definition handleLogout (onLogout : M P unit) : M (State * P) unit :=
  removeItem (lit "user");;
  removeItem (lit "token");;
  Api.setToken VNull;;
  parent onLogout;;
  own (setMenuOpen false).

End WithPlatform.
End Navigation.

(** ** The error shown by the two creation forms *)

(** [errorData.detail.map(e => e.msg)]: the read throws on an element that
    is [undefined] or [null]. *)
Definition detail_messages (detail : list JsValue) : option (list JsValue) :=
  mapM (fun e => get_prop e p_msg) detail.

(** The [catch] block shared, up to the fallback text, by the two creation
    forms; the value is the argument of [setError]. When
    [errorData?.detail] is an array ([Array.isArray]) it is the [msg] of its
    elements joined by a comma and a space; otherwise it is [detail] itself
    if that is truthy, and the fallback text if not. *)
Definition form_error {S} (err : JsValue) (fallback : jsstring)
  : M S JsValue :=
  response ← read_prop err p_response;
  let errorData := opt_prop response p_data in
  let detail := opt_prop errorData p_detail in
  match detail with
  | VArr l =>
      match detail_messages l with
      | Some msgs => mret (VStr (array_join (lit ", ") msgs))
      | None => throw TypeError
      end
  | _ => mret (if truthy detail then detail else VStr fallback)
  end.

Definition is_empty (s : jsstring) : bool := bool_decide (s = []).

(** ** CreateOrgModal.jsx *)

Module CreateOrgModal.

Record State : Type := mkState {
  orgId : jsstring;
  orgName : jsstring;
  error : JsValue;
  loading : bool
}.

Definition initial : State :=
  {| orgId := []; orgName := []; error := VStr []; loading := false |}.

Definition setOrgId (v : jsstring) (s : State) : State :=
  {| orgId := v; orgName := orgName s; error := error s;
     loading := loading s |}.
Definition setOrgName (v : jsstring) (s : State) : State :=
  {| orgId := orgId s; orgName := v; error := error s;
     loading := loading s |}.
Definition setError (v : JsValue) (s : State) : State :=
  {| orgId := orgId s; orgName := orgName s; error := v;
     loading := loading s |}.
Definition setLoading (b : bool) (s : State) : State :=
  {| orgId := orgId s; orgName := orgName s; error := error s;
     loading := b |}.

Definition required_message : jsstring :=
  lit "Organization ID and Name are required".

Section WithPlatform.
Context {pf : Platform}.
Context {P : Type}.

(** [handleSubmit]. [snap] is the state of the render whose closure the
    handler is: what the handler reads. The early [return] inside [try] is
    the first branch of the conditional; [finally] runs after either. *)
Definition handleSubmit (snap : State) (onSuccess onClose : M P unit)
  : M (State * P) unit :=
  own (setError (VStr []));;
  own (setLoading true);;
  try_finally
    (try_catch
       (if is_empty (trim (orgId snap)) || is_empty (trim (orgName snap))
        then
          own (setError (VStr required_message));;
          own (setLoading false)
        else
          Api.createOrg (VStr (orgId snap)) (VStr (orgName snap));;
          parent onSuccess;;
          own (setOrgId []);;
          own (setOrgName []);;
          parent onClose)
       (fun err =>
          shown ← form_error err (lit "Failed to create organization");
          own (setError shown)))
    (own (setLoading false)).

End WithPlatform.

(** [{error && <div className="modal-error">{error}</div>}]. *)
Definition displayed_error (s : State) : option JsValue :=
  if truthy (error s) then Some (error s) else None.

End CreateOrgModal.

(** ** CreateUserModal.jsx *)

Module CreateUserModal.

Record State : Type := mkState {
  username : jsstring;
  password : jsstring;
  role : jsstring;
  error : JsValue;
  loading : bool
}.

Definition initial : State :=
  {| username := []; password := []; role := lit "viewer";
     error := VStr []; loading := false |}.

Definition setUsername (v : jsstring) (s : State) : State :=
  {| username := v; password := password s; role := role s;
     error := error s; loading := loading s |}.
Definition setPassword (v : jsstring) (s : State) : State :=
  {| username := username s; password := v; role := role s;
     error := error s; loading := loading s |}.
Definition setRole (v : jsstring) (s : State) : State :=
  {| username := username s; password := password s; role := v;
     error := error s; loading := loading s |}.
Definition setError (v : JsValue) (s : State) : State :=
  {| username := username s; password := password s; role := role s;
     error := v; loading := loading s |}.
Definition setLoading (b : bool) (s : State) : State :=
  {| username := username s; password := password s; role := role s;
     error := error s; loading := b |}.

Record RoleOption : Type := mkRoleOption {
  value : jsstring;
  label : jsstring
}.

(** [getAvailableRoles], with the prop [currentUserRole] as argument. *)
Definition getAvailableRoles (currentUserRole : JsValue) : list RoleOption :=
  if strict_eq_str currentUserRole (lit "admin") then
    [ {| value := lit "viewer"; label := lit "Viewer" |};
      {| value := lit "editor"; label := lit "Editor" |};
      {| value := lit "admin"; label := lit "Admin" |} ]
  else if strict_eq_str currentUserRole (lit "editor") then
    [ {| value := lit "viewer"; label := lit "Viewer" |};
      {| value := lit "editor"; label := lit "Editor" |} ]
  else
    [ {| value := lit "viewer"; label := lit "Viewer" |} ].

(** The values of the [<option>]s of the role selector. *)
Definition offered_roles (currentUserRole : JsValue) : list jsstring :=
  map value (getAvailableRoles currentUserRole).

Section WithPlatform.
Context {pf : Platform}.
Context {P : Type}.

Definition handleSubmit (snap : State) (orgId : JsValue)
    (onSuccess onClose : M P unit) : M (State * P) unit :=
  own (setError (VStr []));;
  own (setLoading true);;
  try_finally
    (try_catch
       (if is_empty (trim (username snap)) || is_empty (trim (password snap))
        then
          own (setError (VStr (lit "Username and Password are required")));;
          own (setLoading false)
        else
          Api.createUser orgId (VStr (username snap)) (VStr (password snap))
            (VStr (role snap));;
          parent onSuccess;;
          own (setUsername []);;
          own (setPassword []);;
          own (setRole (lit "viewer"));;
          parent onClose)
       (fun err =>
          shown ← form_error err (lit "Failed to create user");
          own (setError shown)))
    (own (setLoading false)).

End WithPlatform.
End CreateUserModal.

(** ** UserManagementModal.jsx *)

Module UserManagementModal.

Record State : Type := mkState {
  users : JsValue;
  loading : bool;
  error : JsValue;
  deleting : JsValue
}.

Definition initial : State :=
  {| users := VArr []; loading := true; error := VStr [];
     deleting := VNull |}.

Definition setUsers (v : JsValue) (s : State) : State :=
  {| users := v; loading := loading s; error := error s;
     deleting := deleting s |}.
Definition setLoading (b : bool) (s : State) : State :=
  {| users := users s; loading := b; error := error s;
     deleting := deleting s |}.
Definition setError (v : JsValue) (s : State) : State :=
  {| users := users s; loading := loading s; error := v;
     deleting := deleting s |}.
Definition setDeleting (v : JsValue) (s : State) : State :=
  {| users := users s; loading := loading s; error := error s;
     deleting := v |}.

(** [l.filter(u => u.username !== username)] on the elements of an array;
    the read [u.username] throws on an element that is [undefined] or
    [null], which ends the whole call. *)
Fixpoint filter_users (username : jsstring) (l : list JsValue)
  : option (list JsValue) :=
  match l with
  | [] => Some []
  | u :: l' =>
      match get_prop u p_username with
      | None => None
      | Some n =>
          match filter_users username l' with
          | None => None
          | Some rest =>
              Some (if negb (strict_eq_str n username) then u :: rest
                    else rest)
          end
      end
  end.

(** [users.filter(...)]: only an array has the method. *)
Definition users_without {S} (users : JsValue) (username : jsstring)
  : M S JsValue :=
  match users with
  | VArr l =>
      match filter_users username l with
      | Some l' => mret (VArr l')
      | None => throw TypeError
      end
  | _ => throw TypeError
  end.

Definition confirm_message (username : jsstring) : jsstring :=
  lit "Are you sure you want to delete user " ++ dquote ++ username
  ++ dquote ++ lit "?".

Section WithPlatform.
Context {pf : Platform}.
Context {P : Type}.

(** [err.response?.data?.detail || fallback]. *)
Definition error_detail (err : JsValue) (fallback : jsstring)
  : M (State * P) JsValue :=
  response ← read_prop err p_response;
  mret (js_or (opt_prop (opt_prop response p_data) p_detail)
          (VStr fallback)).

Definition fetchUsers (orgId : JsValue) : M (State * P) unit :=
  try_finally
    (try_catch
       (own (setLoading true);;
        own (setError (VStr []));;
        data ← Api.listUsers orgId;
        listed ← read_prop data p_users;
        own (setUsers (js_or listed (VArr []))))
       (fun err =>
          shown ← error_detail err (lit "Failed to load users");
          own (setError shown)))
    (own (setLoading false)).

(** [handleDeleteUser]; [snap] is the state of the render whose closure the
    handler is, so [users snap] is the list that was on display when the
    button was pressed. The user name comes from a row of that list and is
    a string. *)
Definition handleDeleteUser (snap : State) (orgId : JsValue)
    (onUserDeleted : M P unit) (username : jsstring) : M (State * P) unit :=
  if negb (window_confirm (confirm_message username)) then mret tt
  else
    try_finally
      (try_catch
         (own (setDeleting (VStr username));;
          Api.deleteUser orgId (VStr username);;
          remaining ← users_without (users snap) username;
          own (setUsers remaining);;
          parent onUserDeleted)
         (fun err =>
            shown ← error_detail err (lit "Failed to delete user");
            own (setError shown)))
      (own (setDeleting VNull)).

(** The effect on [isOpen] and [orgId]. *)
Definition on_open (isOpen : bool) (orgId : JsValue) : M (State * P) unit :=
  if isOpen && truthy orgId then fetchUsers orgId else mret tt.

End WithPlatform.
End UserManagementModal.

(** ** Dashboard.jsx *)

Module Dashboard.

Record State : Type := mkState {
  orgs : JsValue;
  loading : bool;
  error : jsstring;
  showCreateOrgModal : bool;
  showCreateUserModal : bool;
  showUserManagementModal : bool;
  selectedOrgId : JsValue
}.

Definition initial : State :=
  {| orgs := VArr []; loading := true; error := [];
     showCreateOrgModal := false; showCreateUserModal := false;
     showUserManagementModal := false; selectedOrgId := VStr [] |}.

Definition setOrgs (v : JsValue) (s : State) : State :=
  {| orgs := v; loading := loading s; error := error s;
     showCreateOrgModal := showCreateOrgModal s;
     showCreateUserModal := showCreateUserModal s;
     showUserManagementModal := showUserManagementModal s;
     selectedOrgId := selectedOrgId s |}.
Definition setLoading (b : bool) (s : State) : State :=
  {| orgs := orgs s; loading := b; error := error s;
     showCreateOrgModal := showCreateOrgModal s;
     showCreateUserModal := showCreateUserModal s;
     showUserManagementModal := showUserManagementModal s;
     selectedOrgId := selectedOrgId s |}.
Definition setError (v : jsstring) (s : State) : State :=
  {| orgs := orgs s; loading := loading s; error := v;
     showCreateOrgModal := showCreateOrgModal s;
     showCreateUserModal := showCreateUserModal s;
     showUserManagementModal := showUserManagementModal s;
     selectedOrgId := selectedOrgId s |}.
Definition setShowCreateOrgModal (b : bool) (s : State) : State :=
  {| orgs := orgs s; loading := loading s; error := error s;
     showCreateOrgModal := b;
     showCreateUserModal := showCreateUserModal s;
     showUserManagementModal := showUserManagementModal s;
     selectedOrgId := selectedOrgId s |}.
Definition setShowCreateUserModal (b : bool) (s : State) : State :=
  {| orgs := orgs s; loading := loading s; error := error s;
     showCreateOrgModal := showCreateOrgModal s;
     showCreateUserModal := b;
     showUserManagementModal := showUserManagementModal s;
     selectedOrgId := selectedOrgId s |}.
Definition setShowUserManagementModal (b : bool) (s : State) : State :=
  {| orgs := orgs s; loading := loading s; error := error s;
     showCreateOrgModal := showCreateOrgModal s;
     showCreateUserModal := showCreateUserModal s;
     showUserManagementModal := b;
     selectedOrgId := selectedOrgId s |}.
Definition setSelectedOrgId (v : JsValue) (s : State) : State :=
  {| orgs := orgs s; loading := loading s; error := error s;
     showCreateOrgModal := showCreateOrgModal s;
     showCreateUserModal := showCreateUserModal s;
     showUserManagementModal := showUserManagementModal s;
     selectedOrgId := v |}.

(** [user?.role === 'admin'] and [user?.role === 'editor']. *)
Definition isAdmin (user : JsValue) : bool :=
  strict_eq_str (opt_prop user p_role) (lit "admin").
Definition isEditor (user : JsValue) : bool :=
  strict_eq_str (opt_prop user p_role) (lit "editor").

(** The buttons of the dashboard that open a form. *)
Inductive Control : Type :=
  | CreateOrganization
  | AddUser (org_id : JsValue)
  | ManageUsers (org_id : JsValue).

(** The buttons of one organisation's row: both or none. The render reads
    [org.name] and [org.org_id], which throws on [undefined] and [null]. *)
Definition row_controls (user org : JsValue) : option (list Control) :=
  match get_prop org p_org_id with
  | None => None
  | Some i =>
      Some (if isAdmin user || isEditor user
            then [AddUser i; ManageUsers i] else [])
  end.

(** The rows of the organisation list. Only an array gives rows: any other
    JSON value has no [map], and the render then shows the empty-list text
    or fails, with no row either way. *)
Definition org_rows (orgs : JsValue) : list JsValue :=
  match orgs with
  | VArr l => l
  | _ => []
  end.

(** The buttons on screen; [None] when the render throws. Nothing but the
    loading text is rendered while [loading] holds. *)
Definition controls (user : JsValue) (s : State) : option (list Control) :=
  if loading s then Some []
  else
    rows ← mapM (row_controls user) (org_rows (orgs s));
    Some ((if isAdmin user then [CreateOrganization] else []) ++ concat rows).

Section WithPlatform.
Context {pf : Platform}.

Definition fetchOrgs : M State unit :=
  try_finally
    (try_catch
       (modify (setLoading true);;
        data ← Api.listOrgs;
        listed ← read_prop data p_orgs;
        modify (setOrgs (js_or listed (VArr []))))
       (fun err => modify (setError (lit "Failed to load organizations"))))
    (modify (setLoading false)).

(** The effect run on mount. *)
Definition on_mount : M State unit :=
  getItem (lit "token");;
  fetchOrgs.

(** [fetchOrgs()] is called without [await] in the three functions below;
    the updates it makes, now or when the answer arrives, are to [orgs],
    [loading] and [error] only. *)
Definition handleCreateOrgSuccess : M State unit :=
  fetchOrgs;;
  modify (setShowCreateOrgModal false).

Definition handleCreateUserClick (orgId : JsValue) : M State unit :=
  modify (setSelectedOrgId orgId);;
  modify (setShowCreateUserModal true).

Definition handleCreateUserSuccess : M State unit :=
  fetchOrgs;;
  modify (setShowCreateUserModal false).

Definition handleUserManagementClick (orgId : JsValue) : M State unit :=
  modify (setSelectedOrgId orgId);;
  modify (setShowUserManagementModal true).

Definition onUserDeleted : M State unit := fetchOrgs.

(** The [onClick] of a button. *)
Definition onClick (c : Control) : M State unit :=
  match c with
  | CreateOrganization => modify (setShowCreateOrgModal true)
  | AddUser i => handleCreateUserClick i
  | ManageUsers i => handleUserManagementClick i
  end.

(** What can happen to a dashboard: its mount effect runs, a button on
    screen is pressed, or one of the three forms calls a function it was
    given. *)
Inductive Event : Type :=
  | Mount
  | Click (c : Control)
  | CloseCreateOrg
  | CloseCreateUser
  | CloseUserManagement
  | CreateOrgSucceeded
  | CreateUserSucceeded
  | UserDeleted.

Definition handle (ev : Event) : M State unit :=
  match ev with
  | Mount => on_mount
  | Click c => onClick c
  | CloseCreateOrg => modify (setShowCreateOrgModal false)
  | CloseCreateUser => modify (setShowCreateUserModal false)
  | CloseUserManagement => modify (setShowUserManagementModal false)
  | CreateOrgSucceeded => handleCreateOrgSuccess
  | CreateUserSucceeded => handleCreateUserSuccess
  | UserDeleted => onUserDeleted
  end.

(** A button can be pressed when it is on screen; the forms are not
    constrained. *)
Definition enabled (user : JsValue) (s : State) (ev : Event) : Prop :=
  match ev with
  | Click c => exists cs, controls user s = Some cs /\ In c cs
  | _ => True
  end.

(** One step: an event is handled to its end, or ([step_fetch]) a
    [fetchOrgs] that was not awaited writes [orgs], [loading] and [error]
    at a time of its own while the rest of the application acts on the
    environment. *)
Inductive step (user : JsValue) : World State -> World State -> Prop :=
  | step_event w ev r w' :
      enabled user (comp w) ev ->
      handle ev w = (r, w') ->
      step user w w'
  | step_fetch w o l e env' :
      step user w
        (mkWorld (setError e (setLoading l (setOrgs o (comp w)))) env').

(** The worlds a dashboard shown to [user] can be in. It is mounted in its
    initial state in any environment. *)
Inductive reachable (user : JsValue) : World State -> Prop :=
  | reach_mount e : reachable user (mkWorld initial e)
  | reach_step w w' : reachable user w -> step user w w' -> reachable user w'.

End WithPlatform.
End Dashboard.

(** * The notions of the statements *)

(** A call made from a component in state [c] gives what the same call
    gives from any other component in the same environment, and leaves [c]
    as it is. *)
Definition env_only (m : forall S, M S JsValue) : Prop :=
  forall S T (w : World S) (c : T),
    m T (mkWorld c (env w))
    = (fst (m S w), mkWorld c (env (snd (m S w)))).

(** The rows that stay when the user named [u] is deleted. *)
Definition other_than (u : jsstring) (x : JsValue) : bool :=
  negb (strict_eq_str (opt_prop x p_username) u).

(** The roles of the data model. *)
Inductive Role : Type := admin | editor | viewer.

Definition role_name (r : Role) : jsstring :=
  match r with
  | admin => lit "admin"
  | editor => lit "editor"
  | viewer => lit "viewer"
  end.

(** The table of the claim, in its words: nothing for a viewer. *)
Definition assignable_as_claimed (r : Role) : list Role :=
  match r with
  | admin => [viewer; editor; admin]
  | editor => [viewer; editor]
  | viewer => []
  end.

(** The table the selector follows: a viewer is offered 'viewer'. *)
Definition assignable (r : Role) : list Role :=
  match r with
  | admin => [viewer; editor; admin]
  | editor => [viewer; editor]
  | viewer => [viewer]
  end.

(** C2 as it is stated: for every creator role the roles on offer are, as
    a set, those of the claim's table. *)
Definition offered_as_claimed : Prop :=
  forall (r : Role) (x : jsstring),
    In x (CreateUserModal.offered_roles (VStr (role_name r)))
    <-> In x (map role_name (assignable_as_claimed r)).

(** The calls the console makes: the functions that [api.js] exports. *)
Inductive ApiCall : Type :=
  | CallLogin (username password : jsstring)
  | CallListOrgs
  | CallCreateOrg (org_id org_name : JsValue)
  | CallCreateUser (org_id username password role : JsValue)
  | CallListUsers (org_id : JsValue)
  | CallDeleteUser (org_id username : JsValue).

Definition authorization (r : Request) : option jsstring :=
  headers r !! lit "Authorization".

Section FormNotions.
Import CreateUserModal.

(** The three fields the user fills in. *)
Definition entered (s : State) : jsstring * jsstring * jsstring :=
  (username s, password s, role s).

End FormNotions.

Section DashboardNotions.
Import Dashboard.

(** The part of the state that says which form is open, and for which
    organisation. *)
Definition forms (s : State) : bool * bool * bool * JsValue :=
  (showCreateOrgModal s, showCreateUserModal s, showUserManagementModal s,
   selectedOrgId s).

(** A button is on screen only for a role that may use it. *)
Definition permitted (user : JsValue) (c : Control) : bool :=
  match c with
  | CreateOrganization => isAdmin user
  | AddUser _ | ManageUsers _ => isAdmin user || isEditor user
  end.

(** What holds of the forms in every world a dashboard can be in: the
    create-organisation form is open for an admin only, the create-user form
    and the user table for an admin or an editor only. *)
Definition forms_gated (user : JsValue) (s : State) : Prop :=
  (showCreateOrgModal s = true -> isAdmin user = true)
  /\ (showCreateUserModal s = true -> isAdmin user || isEditor user = true)
  /\ (showUserManagementModal s = true ->
      isAdmin user || isEditor user = true).

End DashboardNotions.

Section SessionNotions.
Context {pf : Platform}.
Import App.

(** Both entries of the persisted session are there and not empty. *)
Definition complete (e : Env) : bool :=
  truthy (item e (lit "user")) && truthy (item e (lit "token")).

(** The user entry is not JSON. *)
Definition unparseable (e : Env) : Prop :=
  exists err, JSON_parse (to_string (item e (lit "user"))) = Throw err.

(** Neither entry is in the storage. *)
Definition cleared (e : Env) : Prop :=
  localStorage e !! lit "user" = None
  /\ localStorage e !! lit "token" = None.

(** C1 as it is stated: at the start of the application, when the
    persisted session is missing, partial or unparseable, [restore] returns,
    no user is set and the storage is cleared. *)
Definition restore_clears_as_claimed : Prop :=
  forall w : World State,
    comp w = initial ->
    complete (env w) = false \/ unparseable (env w) ->
    exists w',
      restore w = (Ret tt, w')
      /\ user (comp w') = VNull
      /\ cleared (env w').

(** The world after a logout. *)
Definition logged_out (w : World State) : World State :=
  mkWorld (setUser VNull (comp w))
    (set_axios_common (<[lit "Authorization" := []]> (axios_common (env w)))
       (set_localStorage
          (delete (lit "token") (delete (lit "user") (localStorage (env w))))
          (env w))).

End SessionNotions.

Section RequestNotions.
Context {pf : Platform} {S : Type}.

Definition perform (c : ApiCall) : M S JsValue :=
  match c with
  | CallLogin u p => Api.login u p
  | CallListOrgs => Api.listOrgs
  | CallCreateOrg i n => Api.createOrg i n
  | CallCreateUser o u p r => Api.createUser o u p r
  | CallListUsers o => Api.listUsers o
  | CallDeleteUser o u => Api.deleteUser o u
  end.

(** The requests that the call [c] made in the world [w] sends. *)
Definition issued (c : ApiCall) (w : World S) : list Request :=
  drop (length (sent (env w))) (sent (env (snd (perform c w)))).

(** C4 as it is stated, for the session that [setToken] sets up or ends:
    with a token the requests carry it as bearer, without one they carry no
    Authorization header. *)
Definition authorization_as_claimed : Prop :=
  forall (w : World S) (token : JsValue) (c : ApiCall),
    Forall (fun r => authorization r
                     = if truthy token
                       then Some (lit "Bearer " ++ to_string token)
                       else None)
      (issued c (snd (Api.setToken token w))).

End RequestNotions.

(** The field [p] is missing from the response data, or it is [undefined]
    or [null]: reading it, if it can be read, gives nothing to show. *)
Definition lacks (data : JsValue) (p : PropName) : bool :=
  nullish (opt_prop data p).

Section FetchNotions.
Context {pf : Platform} {P : Type}.

(** C9 as it is stated: whenever the call succeeds and the response lacks
    the list, fetching returns and the list on display is empty. *)
Definition fetch_total_as_claimed : Prop :=
  (forall (orgId data : JsValue) (w : World (UserManagementModal.State * P)),
      fst (Api.listUsers orgId w) = Ret data ->
      lacks data p_users = true ->
      exists w',
        UserManagementModal.fetchUsers orgId w = (Ret tt, w')
        /\ UserManagementModal.users (fst (comp w')) = VArr [])
  /\ (forall (data : JsValue) (w : World Dashboard.State),
        fst (Api.listOrgs w) = Ret data ->
        lacks data p_orgs = true ->
        exists w',
          Dashboard.fetchOrgs w = (Ret tt, w')
          /\ Dashboard.orgs (comp w') = VArr []).

End FetchNotions.

(** ** A platform for the examples *)

Module Fixture.

Definition quoted (s : string) : jsstring := dquote ++ lit s ++ dquote.

(** [{"username":"alice","role":"editor"}] *)
Definition alice_json : jsstring :=
  lit "{" ++ quoted "username" ++ lit ":" ++ quoted "alice" ++ lit ","
  ++ quoted "role" ++ lit ":" ++ quoted "editor" ++ lit "}".

Definition alice : JsValue :=
  VObj [(lit "username", VStr (lit "alice"));
        (lit "role", VStr (lit "editor"))].

Definition bob : JsValue :=
  VObj [(lit "username", VStr (lit "bob"));
        (lit "role", VStr (lit "viewer"))].

Definition carol : JsValue :=
  VObj [(lit "username", VStr (lit "carol"));
        (lit "role", VStr (lit "admin"))].

Definition SyntaxError : JsValue :=
  VObj [(lit "name", VStr (lit "SyntaxError"))].

(** An error of the HTTP client that carries no response. *)
Definition NetworkError : JsValue :=
  VObj [(lit "message", VStr (lit "Network Error"))].

(** The texts the examples store, and no other, are parsed. *)
Definition parse (s : jsstring) : Res JsValue :=
  if bool_decide (s = alice_json) then Ret alice
  else if bool_decide (s = lit "null") then Ret VNull
  else Throw SyntaxError.

(** The examples encode identifiers made of unreserved characters, which
    the encoding leaves as they are. *)
Definition encode (v : JsValue) : Res jsstring := Ret (to_string v).

(** A platform whose backend gives [answer] to every request and whose
    user gives [yes] to every prompt. *)
Definition platform (answer : Res JsValue) (yes : bool) : Platform :=
  {| JSON_parse := parse;
     encodeURIComponent := encode;
     API_BASE := lit "http://localhost:8000";
     backend := fun _ _ => answer;
     window_confirm := fun _ => yes |}.

Definition empty_env : Env :=
  {| localStorage := ∅; axios_common := ∅; sent := [] |}.

End Fixture.

Module Examples.
Import Fixture.

(** The backend answers every request with [{}]; the user confirms. *)
Definition up : Platform := platform (Ret (VObj [])) true.
(** The backend is not reachable. *)
Definition down : Platform := platform (Throw NetworkError) true.

(** A user entry without a token entry. *)
Definition lone_user : World App.State :=
  mkWorld App.initial
    {| localStorage := {[lit "user" := alice_json]};
       axios_common := ∅; sent := [] |}.

(** A user entry that is not JSON, with a token. *)
Definition broken_user : World App.State :=
  mkWorld App.initial
    {| localStorage := {[lit "user" := lit "{oops"; lit "token" := lit "T"]};
       axios_common := ∅; sent := [] |}.

(** The session of the spec's scenario. *)
Definition alice_session : World App.State :=
  mkWorld App.initial
    {| localStorage := {[lit "user" := alice_json; lit "token" := lit "T"]};
       axios_common := ∅; sent := [] |}.

Definition acme : JsValue := VStr (lit "acme").

Definition table : UserManagementModal.State :=
  {| UserManagementModal.users := VArr [alice; bob; carol];
     UserManagementModal.loading := false;
     UserManagementModal.error := VStr [];
     UserManagementModal.deleting := VNull |}.

Definition form : CreateUserModal.State :=
  {| CreateUserModal.username := lit "dave";
     CreateUserModal.password := lit "pw";
     CreateUserModal.role := lit "editor";
     CreateUserModal.error := VStr [];
     CreateUserModal.loading := false |}.

End Examples.

(** * Further notions: the requests of the handlers and more examples *)

Section RequestShapes.
Context {pf : Platform}.

(** The request of [listOrgs] in the environment [e]. *)
Definition orgs_request (e : Env) : Request :=
  mkRequest GET (API_BASE ++ lit "/orgs") (axios_common e) NoBody.

(** The request of [createOrg] for the values entered in the form. *)
Definition create_org_request (e : Env) (orgId orgName : jsstring)
  : Request :=
  mkRequest POST (API_BASE ++ lit "/admin/orgs") (axios_common e)
    (JsonBody (VObj [(lit "org_id", VStr orgId);
                     (lit "org_name", VStr orgName)])).

End RequestShapes.

(** The environment with one more request sent. *)
Definition with_sent (req : Request) (e : Env) : Env :=
  set_sent (sent e ++ [req]) e.

(** The two buttons of the row of the organisation [org]. *)
Definition row_buttons (org : JsValue) : list Dashboard.Control :=
  [Dashboard.AddUser (opt_prop org p_org_id);
   Dashboard.ManageUsers (opt_prop org p_org_id)].

(** [detail] as the [catch] blocks read it from the error [err]. *)
Definition detail_of (err : JsValue) : JsValue :=
  opt_prop (opt_prop (opt_prop err p_response) p_data) p_detail.

Module Scenarios.
Import Fixture.

Definition URIError : JsValue :=
  VObj [(lit "name", VStr (lit "URIError"))].

(** A lone high surrogate, which cannot be encoded. *)
Definition lone_surrogate : jsstring := [55296].

(** As [Fixture.encode], but the lone surrogate is refused. *)
Definition encode_strict (v : JsValue) : Res jsstring :=
  if bool_decide (to_string v = lone_surrogate) then Throw URIError
  else Ret (to_string v).

(** The backend answers every request with [answer]; the user confirms. *)
Definition strict (answer : Res JsValue) : Platform :=
  {| JSON_parse := parse;
     encodeURIComponent := encode_strict;
     API_BASE := lit "http://localhost:8000";
     backend := fun _ _ => answer;
     window_confirm := fun _ => true |}.

(** The error of a rejected call whose response data has [detail]. *)
Definition rejection (detail : JsValue) : JsValue :=
  VObj [(lit "response",
         VObj [(lit "data", VObj [(lit "detail", detail)])])].

(** The backend rejects every request with the given [detail]. *)
Definition refusing (detail : JsValue) : Platform :=
  platform (Throw (rejection detail)) true.

(** The backend answers every request with the given data. *)
Definition answering (data : JsValue) : Platform :=
  platform (Ret data) true.

(** A stored user entry that is the JSON text [null], with a token. *)
Definition null_user : World App.State :=
  mkWorld App.initial
    {| localStorage := {[lit "user" := lit "null"; lit "token" := lit "T"]};
       axios_common := ∅; sent := [] |}.

(** The create-organisation form, filled in with blanks around the id. *)
Definition org_form : CreateOrgModal.State :=
  {| CreateOrgModal.orgId := lit " acme ";
     CreateOrgModal.orgName := lit "ACME";
     CreateOrgModal.error := VStr [];
     CreateOrgModal.loading := false |}.

Definition acme_org : JsValue :=
  VObj [(lit "org_id", VStr (lit "acme")); (lit "name", VStr (lit "ACME"))].

Definition globex_org : JsValue :=
  VObj [(lit "org_id", VStr (lit "globex"));
        (lit "name", VStr (lit "Globex"))].

(** A dashboard that has loaded two organisations. *)
Definition loaded : Dashboard.State :=
  Dashboard.setLoading false
    (Dashboard.setOrgs (VArr [acme_org; globex_org]) Dashboard.initial).

End Scenarios.

(** * Properties *)

(** ** Running a computation *)

Ltac unfold_m :=
  unfold read_prop, getItem, removeItem, own, parent in *;
  unfold mbind, M_bind, mret, M_ret in *;
  unfold bind, ret, throw, of_res, modify, modify_env, read_env, try_catch,
    try_finally in *.

(** ** [trim] *)

Lemma trimStart_nil_iff (s : jsstring) :
  trimStart s = [] <-> forallb is_white_space s = true.
Proof.
  induction s as [|c s IH]; simpl; [tauto|].
  destruct (is_white_space c); simpl; [exact IH|].
  split; discriminate.
Qed.

Lemma trim_nil_iff (s : jsstring) :
  trim s = [] <-> forallb is_white_space s = true.
Proof.
  unfold trim, trimEnd. split.
  - intros H. apply trimStart_nil_iff.
    destruct (trimStart s) as [|c t] eqn:E; [reflexivity|].
    exfalso.
    assert (Hr : trimStart (rev (c :: t)) = []).
    { apply (f_equal (@rev N)) in H. rewrite rev_involutive in H.
      exact H. }
    apply trimStart_nil_iff in Hr.
    rewrite forallb_forall in Hr.
    assert (Hc : is_white_space c = true).
    { apply Hr. apply in_rev. rewrite rev_involutive. left. reflexivity. }
    destruct s as [|c' s']; simpl in E; [discriminate|].
    clear Hr H. revert c' E.
    induction s' as [|d s' IH]; intros c' E; simpl in E.
    + destruct (is_white_space c') eqn:W; [discriminate|].
      injection E as -> _. congruence.
    + destruct (is_white_space c') eqn:W.
      * apply (IH d). exact E.
      * injection E as -> _. congruence.
  - intros H. apply trimStart_nil_iff in H. rewrite H. reflexivity.
Qed.

Lemma is_empty_trim (s : jsstring) :
  is_empty (trim s) = forallb is_white_space s.
Proof.
  unfold is_empty.
  destruct (forallb is_white_space s) eqn:E.
  - apply trim_nil_iff in E. rewrite E. reflexivity.
  - apply bool_decide_eq_false. intros H. apply trim_nil_iff in H.
    congruence.
Qed.

(** ** The create-organisation form *)

Section CreateOrg.
Context {pf : Platform} {P : Type}.
Import CreateOrgModal.

(** C6. A submission of the create-organisation form whose organisation id
    or name is empty or made of white space only ends normally without a
    request being issued and without the parent's functions being called:
    the environment (and with it the list of requests sent) and the parent's
    state are what they were, the form's fields are kept, and the error on
    display is exactly "Organization ID and Name are required". *)
Theorem create_org_blank_rejected
    (snap : State) (onSuccess onClose : M P unit) (w : World (State * P)) :
  forallb is_white_space (orgId snap) = true
  \/ forallb is_white_space (orgName snap) = true ->
  exists w',
    handleSubmit snap onSuccess onClose w = (Ret tt, w')
    /\ sent (env w') = sent (env w)
    /\ env w' = env w
    /\ snd (comp w') = snd (comp w)
    /\ error (fst (comp w')) = VStr required_message
    /\ displayed_error (fst (comp w'))
       = Some (VStr (lit "Organization ID and Name are required"))
    /\ loading (fst (comp w')) = false
    /\ orgId (fst (comp w')) = orgId (fst (comp w))
    /\ orgName (fst (comp w')) = orgName (fst (comp w)).
Proof.
  intros H.
  assert (E : is_empty (trim (orgId snap)) || is_empty (trim (orgName snap))
              = true).
  { rewrite !is_empty_trim. destruct H as [-> | ->]; [reflexivity|].
    apply orb_true_r. }
  unfold handleSubmit. rewrite E. unfold_m. simpl.
  eexists. split; [reflexivity|]. simpl. repeat split.
Qed.

End CreateOrg.

(** The form submitted with three spaces as id is rejected, whatever the
    backend would have answered. *)
Lemma create_org_blank_rejected_witness :
  let snap := CreateOrgModal.mkState (lit "   ") (lit "ACME") (VStr []) false in
  let w := mkWorld (snap, tt) Fixture.empty_env in
  exists w',
    CreateOrgModal.handleSubmit (pf := Fixture.platform (Ret VNull) true)
      snap (mret tt) (mret tt) w = (Ret tt, w')
    /\ sent (env w') = []
    /\ CreateOrgModal.displayed_error (fst (comp w'))
       = Some (VStr (lit "Organization ID and Name are required")).
Proof.
  intros snap w.
  destruct (create_org_blank_rejected
              (pf := Fixture.platform (Ret VNull) true)
              snap (mret tt) (mret tt) w)
    as (w' & H1 & H2 & _ & _ & _ & H6 & _).
  - left. reflexivity.
  - exists w'. repeat split; assumption.
Defined.

(** ** Calls of the API act on the environment only *)

Section ApiFrame.
Context {pf : Platform}.

Lemma axios_request_env_only m u x b :
  env_only (fun S => Api.axios_request (S := S) m u x b).
Proof. intros S T w c. reflexivity. Qed.


Lemma createOrg_env_only i n :
  env_only (fun S => Api.createOrg (S := S) i n).
Proof. intros S T w c. reflexivity. Qed.

Lemma listOrgs_env_only : env_only (fun S => Api.listOrgs (S := S)).
Proof. intros S T w c. reflexivity. Qed.

Lemma listUsers_env_only o : env_only (fun S => Api.listUsers (S := S) o).
Proof.
  intros S T w c. unfold Api.listUsers. unfold_m.
  destruct (encodeURIComponent o); reflexivity.
Qed.

Lemma deleteUser_env_only o u :
  env_only (fun S => Api.deleteUser (S := S) o u).
Proof.
  intros S T w c. unfold Api.deleteUser. unfold_m.
  destruct (encodeURIComponent o); [|reflexivity].
  destruct (encodeURIComponent u); reflexivity.
Qed.

(** The shape in which the handlers meet it. *)
Lemma env_only_run (m : forall S, M S JsValue) (H : env_only m)
    {S} (w : World S) c e :
  env w = e ->
  m S (mkWorld c e) = (fst (m S w), mkWorld c (env (snd (m S w)))).
Proof. intros <-. apply H. Qed.

End ApiFrame.

(** ** The error shown by a form is computed without any effect *)

Lemma form_error_world {S} (err : JsValue) (fallback : jsstring)
    (w : World S) :
  exists r, form_error err fallback w = (r, w).
Proof.
  unfold form_error. unfold_m.
  destruct (get_prop err p_response) as [resp|]; [|eauto].
  cbv zeta.
  destruct (opt_prop (opt_prop resp p_data) p_detail) as [| | | | |l|];
    eauto.
  destruct (detail_messages l); eauto.
Qed.

(** ** The create-user form *)

Section CreateUser.
Context {pf : Platform} {P : Type}.
Import CreateUserModal.


End CreateUser.

(** ** The user table *)

Section UserManagement.
Context {pf : Platform} {P : Type}.
Import UserManagementModal.

Lemma error_detail_world (err : JsValue) (fallback : jsstring)
    (w : World (State * P)) :
  exists r, error_detail err fallback w = (r, w).
Proof.
  unfold error_detail. unfold_m.
  destruct (get_prop err p_response); eauto.
Qed.

Lemma filter_users_rows (u : jsstring) (l : list JsValue) :
  Forall (fun x => nullish x = false) l ->
  filter_users u l = Some (List.filter (other_than u) l).
Proof.
  induction 1 as [|x l Hx _ IH]; [reflexivity|].
  simpl. rewrite IH. unfold other_than, opt_prop.
  destruct x; try discriminate; reflexivity.
Qed.

(** C7. When the user confirms and the call of the API succeeds, the
    deletion of the user named [u] from the list on display, a list of rows
    none of which is [undefined] or [null], leaves on display the rows whose
    user name is not [u], each as it was and in the order they had. *)
Theorem delete_removes_exactly
    (snap : State) (orgId : JsValue) (onUserDeleted : M P unit)
    (u : jsstring) (l : list JsValue) (w : World (State * P)) :
  users snap = VArr l ->
  Forall (fun x => nullish x = false) l ->
  window_confirm (confirm_message u) = true ->
  (exists data, fst (Api.deleteUser orgId (VStr u) w) = Ret data) ->
  users (fst (comp (snd (handleDeleteUser snap orgId onUserDeleted u w))))
  = VArr (List.filter (other_than u) l).
Proof.
  intros Hl Hrows Hc [data Hd].
  pose proof (deleteUser_env_only orgId (VStr u)) as F.
  unfold handleDeleteUser. rewrite Hc. simpl.
  unfold users_without. rewrite Hl, (filter_users_rows u l Hrows).
  unfold_m. simpl.
  rewrite (env_only_run _ F w _ (env w) eq_refl). rewrite Hd.
  match goal with |- context [onUserDeleted ?p] =>
    destruct (onUserDeleted p) as [[[]|e] q] end.
  - reflexivity.
  - simpl.
    match goal with |- context [error_detail e ?fb ?w0] =>
      destruct (error_detail_world e fb w0) as [[v|e'] ->] end; reflexivity.
Qed.


(** A [users] field that reads as [undefined] or [null] gives the empty
    list of users. *)
Lemma fetchUsers_missing_list (orgId data listed : JsValue)
    (w : World (State * P)) :
  fst (Api.listUsers orgId w) = Ret data ->
  get_prop data p_users = Some listed ->
  nullish listed = true ->
  exists w',
    fetchUsers orgId w = (Ret tt, w')
    /\ users (fst (comp w')) = VArr []
    /\ loading (fst (comp w')) = false.
Proof.
  intros Hd Hg Hn.
  pose proof (listUsers_env_only orgId) as F.
  unfold fetchUsers. unfold_m. simpl.
  rewrite (env_only_run _ F w _ (env w) eq_refl). rewrite Hd, Hg.
  destruct listed; try discriminate; eexists; (split; [reflexivity|]);
    split; reflexivity.
Qed.

(** When the response data itself is [undefined] or [null] the read of
    [users] throws inside [try]: the fallback message is shown and the list
    stays. *)
Lemma fetchUsers_nullish_data (orgId data : JsValue)
    (w : World (State * P)) :
  fst (Api.listUsers orgId w) = Ret data ->
  nullish data = true ->
  exists w',
    fetchUsers orgId w = (Ret tt, w')
    /\ users (fst (comp w')) = users (fst (comp w))
    /\ error (fst (comp w')) = VStr (lit "Failed to load users").
Proof.
  intros Hd Hn.
  pose proof (listUsers_env_only orgId) as F.
  unfold fetchUsers, error_detail. unfold_m. simpl.
  rewrite (env_only_run _ F w _ (env w) eq_refl). rewrite Hd.
  destruct data; try discriminate; eexists; (split; [reflexivity|]);
    split; reflexivity.
Qed.

End UserManagement.

(** ** The dashboard *)

Section DashboardProperties.
Context {pf : Platform}.
Import Dashboard.

(** [fetchOrgs] always returns, and it leaves the forms alone. *)
Lemma fetchOrgs_returns (w : World State) :
  exists w',
    fetchOrgs w = (Ret tt, w')
    /\ forms (comp w') = forms (comp w)
    /\ loading (comp w') = false.
Proof.
  pose proof listOrgs_env_only as F.
  unfold fetchOrgs. unfold_m.
  rewrite (env_only_run _ F w _ (env w) eq_refl).
  destruct (fst (Api.listOrgs w)) as [data|err].
  - destruct (get_prop data p_orgs) as [listed|];
      eexists; repeat split; reflexivity.
  - eexists. repeat split; reflexivity.
Qed.

(** An [orgs] field that reads as [undefined] or [null] gives the empty
    list of organisations. *)
Lemma fetchOrgs_missing_list (data listed : JsValue) (w : World State) :
  fst (Api.listOrgs w) = Ret data ->
  get_prop data p_orgs = Some listed ->
  nullish listed = true ->
  exists w',
    fetchOrgs w = (Ret tt, w')
    /\ orgs (comp w') = VArr []
    /\ loading (comp w') = false.
Proof.
  intros Hd Hg Hn.
  pose proof listOrgs_env_only as F.
  unfold fetchOrgs. unfold_m.
  rewrite (env_only_run _ F w _ (env w) eq_refl). rewrite Hd, Hg. simpl.
  destruct listed; try discriminate; eexists; (split; [reflexivity|]);
    split; reflexivity.
Qed.

(** When the response data itself is [undefined] or [null] the read of
    [orgs] throws inside [try]: the error is shown and the list stays. *)
Lemma fetchOrgs_nullish_data (data : JsValue) (w : World State) :
  fst (Api.listOrgs w) = Ret data ->
  nullish data = true ->
  exists w',
    fetchOrgs w = (Ret tt, w')
    /\ orgs (comp w') = orgs (comp w)
    /\ error (comp w') = lit "Failed to load organizations".
Proof.
  intros Hd Hn.
  pose proof listOrgs_env_only as F.
  unfold fetchOrgs. unfold_m.
  rewrite (env_only_run _ F w _ (env w) eq_refl). rewrite Hd. simpl.
  destruct data; try discriminate; eexists; (split; [reflexivity|]);
    split; reflexivity.
Qed.

Lemma Forall2_In_r {A B} (R : A -> B -> Prop) (l : list A) (k : list B)
    (y : B) :
  Forall2 R l k -> In y k -> exists x, In x l /\ R x y.
Proof.
  induction 1 as [|x y' l k Hxy _ IH]; intros Hin; [destruct Hin|].
  destruct Hin as [<- | Hin].
  - exists x. split; [left; reflexivity|exact Hxy].
  - destruct (IH Hin) as (x' & Hx' & HR). exists x'.
    split; [right; exact Hx'|exact HR].
Qed.

Lemma row_controls_permitted (user org : JsValue) (cs : list Control)
    (c : Control) :
  row_controls user org = Some cs -> In c cs -> permitted user c = true.
Proof.
  unfold row_controls.
  destruct (get_prop org p_org_id) as [i|]; [|discriminate].
  destruct (isAdmin user || isEditor user) eqn:E.
  - intros [= <-] [<- | [<- | []]]; exact E.
  - intros [= <-] [].
Qed.

Lemma controls_permitted (user : JsValue) (s : State) (cs : list Control)
    (c : Control) :
  controls user s = Some cs -> In c cs -> permitted user c = true.
Proof.
  unfold controls. destruct (loading s).
  - intros [= <-] [].
  - destruct (mapM (row_controls user) (org_rows (orgs s))) as [rows|] eqn:E;
      simpl; [|discriminate].
    intros [= <-] Hin. apply in_app_or in Hin as [Hin | Hin].
    + destruct (isAdmin user) eqn:A; [|destruct Hin].
      destruct Hin as [<- | []]. exact A.
    + apply mapM_Some in E. apply in_concat in Hin as (row & Hrow & Hc).
      destruct (Forall2_In_r _ _ _ _ E Hrow) as (org & _ & Horg).
      exact (row_controls_permitted user org row c Horg Hc).
Qed.

Lemma forms_gated_same_forms (user : JsValue) (s s' : State) :
  forms s' = forms s -> forms_gated user s -> forms_gated user s'.
Proof.
  unfold forms, forms_gated. intros [= -> -> -> _]. tauto.
Qed.

Lemma handle_forms_gated (user : JsValue) (ev : Event) (w w' : World State)
    (r : Res unit) :
  enabled user (comp w) ev ->
  handle ev w = (r, w') ->
  forms_gated user (comp w) -> forms_gated user (comp w').
Proof.
  intros Hen Hrun (H1 & H2 & H3).
  destruct ev as [|c| | | | | |]; simpl in Hrun.
  - unfold on_mount in Hrun. unfold_m. simpl in Hrun.
    destruct (fetchOrgs_returns w) as (w1 & E & Hf & _).
    rewrite E in Hrun.
    injection Hrun as _ <-.
    apply (forms_gated_same_forms user (comp w)); [exact Hf|].
    repeat split; assumption.
  - destruct Hen as (cs & Hcs & Hin).
    pose proof (controls_permitted user (comp w) cs c Hcs Hin) as Hp.
    destruct c as [|i|i]; unfold_m; simpl in *;
      injection Hrun as _ <-; unfold forms_gated; simpl; tauto.
  - unfold_m. injection Hrun as _ <-. unfold forms_gated. simpl.
    repeat split; [discriminate|assumption|assumption].
  - unfold_m. injection Hrun as _ <-. unfold forms_gated. simpl.
    repeat split; [assumption|discriminate|assumption].
  - unfold_m. injection Hrun as _ <-. unfold forms_gated. simpl.
    repeat split; [assumption|assumption|discriminate].
  - unfold handleCreateOrgSuccess in Hrun. unfold_m.
    destruct (fetchOrgs_returns w) as (w1 & E & Hf & _).
    rewrite E in Hrun. injection Hrun as _ <-.
    unfold forms, forms_gated in *. simpl.
    injection Hf as _ -> ->.
    repeat split; [discriminate|assumption|assumption].
  - unfold handleCreateUserSuccess in Hrun. unfold_m.
    destruct (fetchOrgs_returns w) as (w1 & E & Hf & _).
    rewrite E in Hrun. injection Hrun as _ <-.
    unfold forms, forms_gated in *. simpl.
    injection Hf as -> _ ->.
    repeat split; [assumption|discriminate|assumption].
  - unfold onUserDeleted in Hrun.
    destruct (fetchOrgs_returns w) as (w1 & E & Hf & _).
    rewrite E in Hrun. injection Hrun as _ <-.
    apply (forms_gated_same_forms user (comp w)); [exact Hf|].
    repeat split; assumption.
Qed.

End DashboardProperties.

Section Gating.
Context {pf : Platform}.
Import Dashboard.

Lemma reachable_forms_gated (user : JsValue) (w : World State) :
  reachable user w -> forms_gated user (comp w).
Proof.
  induction 1 as [e | w w' _ IH Hstep].
  - repeat split; discriminate.
  - destruct Hstep as [w ev r w' Hen Hrun | w o l e env'].
    + exact (handle_forms_gated user ev w w' r Hen Hrun IH).
    + apply (forms_gated_same_forms user (comp w)); [reflexivity|exact IH].
Qed.

(** C3. The guard of the create-organisation button is [isAdmin], the
    console's form of the spec's [can("createOrg")]. For a session whose role
    is not 'admin' the guard is false, the button is not on screen, and in no
    world the dashboard can reach is the create-organisation form open. For a
    session whose role is 'viewer' neither of the two user buttons of an
    organisation is on screen, and neither the create-user form nor the user
    table, which holds the delete buttons, is ever open. *)
Theorem role_gating (user : JsValue) (w : World State) :
  reachable user w ->
  (opt_prop user p_role <> VStr (lit "admin") ->
   isAdmin user = false
   /\ showCreateOrgModal (comp w) = false
   /\ forall cs, controls user (comp w) = Some cs ->
        ~ In CreateOrganization cs)
  /\ (opt_prop user p_role = VStr (lit "viewer") ->
      showCreateUserModal (comp w) = false
      /\ showUserManagementModal (comp w) = false
      /\ forall cs i, controls user (comp w) = Some cs ->
           ~ In (AddUser i) cs /\ ~ In (ManageUsers i) cs).
Proof.
  intros Hr. destruct (reachable_forms_gated user w Hr) as (H1 & H2 & H3).
  split.
  - intros Hrole.
    assert (A : isAdmin user = false).
    { unfold isAdmin, strict_eq_str.
      destruct (opt_prop user p_role) as [| | | |s| |]; try reflexivity.
      apply bool_decide_eq_false. intros ->. apply Hrole. reflexivity. }
    split; [exact A|]. split.
    + destruct (showCreateOrgModal (comp w)); [|reflexivity].
      rewrite (H1 eq_refl) in A. discriminate.
    + intros cs Hcs Hin.
      pose proof (controls_permitted user _ cs _ Hcs Hin) as Hp.
      simpl in Hp. congruence.
  - intros Hrole.
    assert (A : isAdmin user || isEditor user = false).
    { unfold isAdmin, isEditor. rewrite Hrole. reflexivity. }
    split; [|split].
    + destruct (showCreateUserModal (comp w)); [|reflexivity].
      rewrite (H2 eq_refl) in A. discriminate.
    + destruct (showUserManagementModal (comp w)); [|reflexivity].
      rewrite (H3 eq_refl) in A. discriminate.
    + intros cs i Hcs. split; intros Hin;
        pose proof (controls_permitted user _ cs _ Hcs Hin) as Hp;
        simpl in Hp; congruence.
Qed.

End Gating.

Section Fetching.
Context {pf : Platform} {P : Type}.

(** C9, amended. When the call succeeds with response data that is not
    itself [undefined] or [null] and whose [users] field (whose [orgs] field)
    is missing or is [undefined] or [null], fetching returns and the list of
    users (of organisations) is the empty array. When the response data is
    itself [undefined] or [null], the read of the field throws inside [try]
    and is caught: fetching returns all the same, the list is left as it was
    and the error shown is "Failed to load users" ("Failed to load
    organizations"). *)
Theorem fetch_on_malformed_response :
  ((forall (orgId data : JsValue)
           (w : World (UserManagementModal.State * P)),
       fst (Api.listUsers orgId w) = Ret data ->
       nullish data = false ->
       lacks data p_users = true ->
       exists w',
         UserManagementModal.fetchUsers orgId w = (Ret tt, w')
         /\ UserManagementModal.users (fst (comp w')) = VArr [])
   /\ (forall (data : JsValue) (w : World Dashboard.State),
         fst (Api.listOrgs w) = Ret data ->
         nullish data = false ->
         lacks data p_orgs = true ->
         exists w',
           Dashboard.fetchOrgs w = (Ret tt, w')
           /\ Dashboard.orgs (comp w') = VArr []))
  /\ ((forall (orgId data : JsValue)
              (w : World (UserManagementModal.State * P)),
          fst (Api.listUsers orgId w) = Ret data ->
          nullish data = true ->
          exists w',
            UserManagementModal.fetchUsers orgId w = (Ret tt, w')
            /\ UserManagementModal.users (fst (comp w'))
               = UserManagementModal.users (fst (comp w))
            /\ UserManagementModal.error (fst (comp w'))
               = VStr (lit "Failed to load users"))
      /\ (forall (data : JsValue) (w : World Dashboard.State),
            fst (Api.listOrgs w) = Ret data ->
            nullish data = true ->
            exists w',
              Dashboard.fetchOrgs w = (Ret tt, w')
              /\ Dashboard.orgs (comp w') = Dashboard.orgs (comp w)
              /\ Dashboard.error (comp w')
                 = lit "Failed to load organizations")).
Proof.
  assert (G : forall data p,
             nullish data = false ->
             get_prop data p = Some (opt_prop data p)).
  { intros data p Hn. destruct data; try discriminate; reflexivity. }
  split; split.
  - intros orgId data w Hd Hn Hl.
    destruct (fetchUsers_missing_list orgId data (opt_prop data p_users) w
                Hd (G _ _ Hn) Hl) as (w' & E & Hu & _).
    exists w'. split; assumption.
  - intros data w Hd Hn Hl.
    destruct (fetchOrgs_missing_list data (opt_prop data p_orgs) w
                Hd (G _ _ Hn) Hl) as (w' & E & Ho & _).
    exists w'. split; assumption.
  - intros orgId data w Hd Hn.
    exact (fetchUsers_nullish_data orgId data w Hd Hn).
  - intros data w Hd Hn.
    exact (fetchOrgs_nullish_data data w Hd Hn).
Qed.

End Fetching.

(** ** The role selector of the create-user form *)

(** C2, counterexample: a viewer is offered the role 'viewer', not the
    empty set. *)
Lemma viewer_is_offered_viewer :
  CreateUserModal.offered_roles (VStr (lit "viewer")) = [lit "viewer"]
  /\ ~ offered_as_claimed.
Proof.
  split; [reflexivity|].
  intros H. destruct (H viewer (lit "viewer")) as [H1 _].
  apply H1. left. reflexivity.
Qed.

(** C2, amended. The roles on offer are, in this order: for an admin
    'viewer', 'editor', 'admin'; for an editor 'viewer', 'editor'; for a
    viewer 'viewer'. Whatever the creator's role is, 'viewer' is on offer;
    and for every value that is neither 'admin' nor 'editor' (a viewer, a
    role spelt otherwise, no role at all) 'viewer' is all that is on
    offer. *)
Theorem offered_roles_by_role :
  (forall r : Role,
      CreateUserModal.offered_roles (VStr (role_name r))
      = map role_name (assignable r))
  /\ (forall v : JsValue, In (lit "viewer") (CreateUserModal.offered_roles v))
  /\ (forall v : JsValue,
        v <> VStr (lit "admin") ->
        v <> VStr (lit "editor") ->
        CreateUserModal.offered_roles v = [lit "viewer"]).
Proof.
  split; [|split].
  - intros []; reflexivity.
  - intros v. unfold CreateUserModal.offered_roles,
      CreateUserModal.getAvailableRoles.
    destruct (strict_eq_str v (lit "admin")); [left; reflexivity|].
    destruct (strict_eq_str v (lit "editor")); left; reflexivity.
  - intros v Ha He.
    assert (N : forall name, v <> VStr name -> strict_eq_str v name = false).
    { intros name Hv. destruct v as [| | | |s| |]; try reflexivity.
      apply bool_decide_eq_false. intros ->. apply Hv. reflexivity. }
    unfold CreateUserModal.offered_roles, CreateUserModal.getAvailableRoles.
    rewrite (N _ Ha), (N _ He). reflexivity.
Qed.

(** A creator without a role, and one whose role is spelt 'Admin', are
    offered 'viewer' and nothing else. *)
Lemma offered_roles_by_role_witness :
  CreateUserModal.offered_roles VUndefined = [lit "viewer"]
  /\ CreateUserModal.offered_roles (VStr (lit "Admin")) = [lit "viewer"].
Proof.
  split.
  - apply (proj2 (proj2 offered_roles_by_role) VUndefined); discriminate.
  - apply (proj2 (proj2 offered_roles_by_role) (VStr (lit "Admin")));
      intros H; vm_compute in H; discriminate H.
Defined.

(** The ceiling is kept: the offers shrink from admin to editor to viewer,
    and an editor is not offered 'admin'. *)
Lemma offered_roles_non_increasing :
  incl (CreateUserModal.offered_roles (VStr (lit "viewer")))
       (CreateUserModal.offered_roles (VStr (lit "editor")))
  /\ incl (CreateUserModal.offered_roles (VStr (lit "editor")))
          (CreateUserModal.offered_roles (VStr (lit "admin")))
  /\ ~ In (lit "admin") (CreateUserModal.offered_roles (VStr (lit "editor"))).
Proof.
  split; [|split].
  - intros x [<- | []]. left. reflexivity.
  - intros x [<- | [<- | []]]; [left|right; left]; reflexivity.
  - intros [H | [H | []]]; discriminate.
Qed.

(** ** The session: restoring it and logging out *)

Section Session.
Context {pf : Platform}.
Import App.

(** C1, amended. At the start of the application, when an entry of the
    persisted session is missing or empty, or the user entry is not JSON,
    [restore] returns without raising, no user is set and the login screen
    is shown; the default headers are untouched and no request is sent. Both
    entries are removed from the storage when both were there and the user
    entry is not JSON; when an entry is missing or empty the storage is left
    as it is. *)
Theorem restore_without_session (w : World State) :
  comp w = initial ->
  complete (env w) = false \/ unparseable (env w) ->
  exists w',
    restore w = (Ret tt, w')
    /\ comp w' = {| user := VNull; loading := false |}
    /\ render (comp w') = LoginScreen
    /\ axios_common (env w') = axios_common (env w)
    /\ sent (env w') = sent (env w)
    /\ localStorage (env w')
       = if complete (env w)
         then delete (lit "token") (delete (lit "user") (localStorage (env w)))
         else localStorage (env w).
Proof.
  intros Hi Hcase. unfold restore. unfold_m. fold (complete (env w)).
  destruct (complete (env w)) eqn:C.
  - destruct Hcase as [? | [err Hp]]; [discriminate|].
    rewrite Hp. simpl. rewrite Hi.
    eexists. repeat split; reflexivity.
  - simpl. rewrite Hi. eexists. repeat split; reflexivity.
Qed.

(** A stored session that parses is restored: the user is set and the
    token is given to the HTTP client. *)
Lemma restore_session (w : World State) (parsed : JsValue) :
  complete (env w) = true ->
  JSON_parse (to_string (item (env w) (lit "user"))) = Ret parsed ->
  restore w
  = (Ret tt,
     mkWorld {| user := parsed; loading := false |}
       (set_axios_common
          (<[lit "Authorization" :=
               lit "Bearer " ++ to_string (item (env w) (lit "token"))]>
             (axios_common (env w))) (env w))).
Proof.
  intros C Hp. unfold restore, Api.setToken. unfold_m.
  fold (complete (env w)). rewrite C, Hp. simpl.
  unfold complete in C. apply andb_true_iff in C as [_ Ht]. rewrite Ht.
  reflexivity.
Qed.

(** After a login that stored its session the user is set and the token
    is given to the HTTP client. *)
Lemma handleLoginSuccess_session (w : World State) (parsed : JsValue) :
  complete (env w) = true ->
  JSON_parse (to_string (item (env w) (lit "user"))) = Ret parsed ->
  handleLoginSuccess w
  = (Ret tt,
     mkWorld (setUser parsed (comp w))
       (set_axios_common
          (<[lit "Authorization" :=
               lit "Bearer " ++ to_string (item (env w) (lit "token"))]>
             (axios_common (env w))) (env w))).
Proof.
  intros C Hp. unfold handleLoginSuccess, Api.setToken. unfold_m.
  fold (complete (env w)). rewrite C, Hp. simpl.
  unfold complete in C. apply andb_true_iff in C as [_ Ht]. rewrite Ht.
  reflexivity.
Qed.

Lemma handleLogout_run (w : World State) :
  handleLogout w = (Ret tt, logged_out w).
Proof. reflexivity. Qed.

Lemma logged_out_idempotent (w : World State) :
  logged_out (logged_out w) = logged_out w.
Proof.
  unfold logged_out, set_axios_common, set_localStorage. simpl.
  f_equal. f_equal.
  - apply map_eq. intros k. rewrite !lookup_delete.
    repeat case_decide; reflexivity.
  - apply insert_insert_eq.
Qed.

Lemma logged_out_cleared (w : World State) : cleared (env (logged_out w)).
Proof.
  split; simpl.
  - rewrite lookup_delete_ne by discriminate. apply lookup_delete_eq.
  - apply lookup_delete_eq.
Qed.

Lemma cleared_incomplete (e : Env) : cleared e -> complete e = false.
Proof.
  intros [Hu _]. unfold complete, item. rewrite Hu. reflexivity.
Qed.

(** C5. A logout returns, unsets the user and removes the persisted user
    and token; a second logout changes nothing; and [restore] after a logout
    returns with no user set, shows the login screen and leaves the
    environment as the logout left it. *)
Theorem logout_idempotent_then_restore (w : World State) :
  exists w1,
    handleLogout w = (Ret tt, w1)
    /\ user (comp w1) = VNull
    /\ cleared (env w1)
    /\ handleLogout w1 = (Ret tt, w1)
    /\ exists w2,
         restore w1 = (Ret tt, w2)
         /\ user (comp w2) = VNull
         /\ render (comp w2) = LoginScreen
         /\ env w2 = env w1.
Proof.
  exists (logged_out w).
  split; [apply handleLogout_run|].
  split; [reflexivity|].
  split; [apply logged_out_cleared|].
  split; [rewrite handleLogout_run, logged_out_idempotent; reflexivity|].
  unfold restore. unfold_m. fold (complete (env (logged_out w))).
  rewrite (cleared_incomplete _ (logged_out_cleared w)).
  eexists. repeat split; reflexivity.
Qed.

(** X4. The logout button of the navigation bar clears the storage and
    the token itself before it calls [App]'s logout, which does it again:
    the application ends in the world of a single logout, with the menu
    closed. *)
Lemma navigation_logout (n : Navigation.State) (w : World State) :
  Navigation.handleLogout handleLogout (mkWorld (n, comp w) (env w))
  = (Ret tt,
     mkWorld (Navigation.mkState false, comp (logged_out w))
       (env (logged_out w))).
Proof.
  unfold Navigation.handleLogout, handleLogout, Api.setToken, logged_out,
    set_axios_common, set_localStorage.
  unfold_m. simpl. f_equal. f_equal. f_equal.
  - apply map_eq. intros k. rewrite !lookup_delete.
    repeat case_decide; reflexivity.
  - apply insert_insert_eq.
Qed.

End Session.

(** ** The Authorization header of outbound requests *)

Section Authorization.
Context {pf : Platform} {S : Type}.

Lemma axios_request_issued m u x b (w : World S) :
  x !! lit "Authorization" = None ->
  exists new,
    sent (env (snd (Api.axios_request m u x b w))) = sent (env w) ++ new
    /\ Forall (fun r => authorization r
                        = axios_common (env w) !! lit "Authorization") new.
Proof.
  intros Hx. eexists. split; [reflexivity|].
  constructor; [|constructor].
  unfold authorization. simpl.
  rewrite lookup_union_r by exact Hx. reflexivity.
Qed.

Lemma perform_issued (c : ApiCall) (w : World S) :
  exists new,
    sent (env (snd (perform c w))) = sent (env w) ++ new
    /\ Forall (fun r => authorization r
                        = axios_common (env w) !! lit "Authorization") new.
Proof.
  assert (N : forall w0 : World S,
             exists new : list Request,
               sent (env w0) = sent (env w0) ++ new
               /\ Forall (fun r => authorization r
                            = axios_common (env w0) !! lit "Authorization")
                    new).
  { intros w0. exists []. split; [symmetry; apply app_nil_r|constructor]. }
  destruct c as [u p| |i n|o u p r|o|o u]; simpl.
  - apply axios_request_issued. reflexivity.
  - apply axios_request_issued. reflexivity.
  - apply axios_request_issued. reflexivity.
  - unfold Api.createUser. unfold_m.
    destruct (encodeURIComponent o); [|apply N].
    apply axios_request_issued. reflexivity.
  - unfold Api.listUsers. unfold_m.
    destruct (encodeURIComponent o); [|apply N].
    apply axios_request_issued. reflexivity.
  - unfold Api.deleteUser. unfold_m.
    destruct (encodeURIComponent o); [|apply N].
    destruct (encodeURIComponent u); [|apply N].
    apply axios_request_issued. reflexivity.
Qed.

Lemma issued_default (c : ApiCall) (w : World S) :
  Forall (fun r => authorization r
                   = axios_common (env w) !! lit "Authorization")
    (issued c w).
Proof.
  unfold issued. destruct (perform_issued c w) as (new & -> & H).
  rewrite drop_app_length. exact H.
Qed.

(** C4, amended. Once [setToken] was called with a token, every request
    carries the header Authorization: Bearer <token>; once it was called
    without one, as the logout does, every request carries an Authorization
    header whose value is the empty string. A request carries no
    Authorization header only as long as the default headers have none, that
    is before the first call of [setToken]. *)
Theorem authorization_header :
  (forall (w : World S) (token : JsValue) (c : ApiCall),
      Forall (fun r => authorization r
                       = Some (if truthy token
                               then lit "Bearer " ++ to_string token
                               else []))
        (issued c (snd (Api.setToken token w))))
  /\ (forall (w : World S) (c : ApiCall),
        Forall (fun r => authorization r
                         = axios_common (env w) !! lit "Authorization")
          (issued c w)).
Proof.
  split.
  - intros w token c.
    eapply Forall_impl; [apply issued_default|].
    intros r ->. simpl. apply lookup_insert_eq.
  - intros w c. apply issued_default.
Qed.

End Authorization.

(** ** Examples *)

Section Callbacks.
Context {pf : Platform}.


Lemma handleCreateOrgSuccess_returns (w : World Dashboard.State) :
  exists w', Dashboard.handleCreateOrgSuccess w = (Ret tt, w').
Proof.
  unfold Dashboard.handleCreateOrgSuccess. unfold_m.
  destruct (fetchOrgs_returns w) as (w1 & -> & _). eauto.
Qed.

End Callbacks.

Import Fixture Examples.

(** C1, counterexample: with a user entry and no token entry [restore]
    returns and leaves the user entry in the storage. *)
Lemma restore_keeps_lone_user :
  complete (env lone_user) = false
  /\ (exists w',
        App.restore (pf := up) lone_user = (Ret tt, w')
        /\ localStorage (env w') !! lit "user" = Some alice_json)
  /\ ~ restore_clears_as_claimed (pf := up).
Proof.
  split; [reflexivity|]. split.
  - eexists. split; reflexivity.
  - intros H.
    destruct (H lone_user eq_refl (or_introl eq_refl))
      as (w' & Hrun & _ & Hu & _).
    injection Hrun as <-. discriminate Hu.
Qed.

(** An unparseable user entry with a token: both entries are removed. *)
Lemma restore_without_session_witness :
  exists w',
    App.restore (pf := up) broken_user = (Ret tt, w')
    /\ App.render (comp w') = App.LoginScreen
    /\ localStorage (env w') = ∅.
Proof.
  destruct (restore_without_session (pf := up) broken_user eq_refl)
    as (w' & Hrun & _ & Hscreen & _ & _ & Hst).
  - right. exists SyntaxError. reflexivity.
  - exists w'. split; [exact Hrun|]. split; [exact Hscreen|].
    rewrite Hst. reflexivity.
Defined.

(** The scenario of the spec: the stored session of alice is restored and
    the list of the users of acme is asked for with her token. *)
Example alice_restored :
  exists w',
    App.restore (pf := up) alice_session = (Ret tt, w')
    /\ App.user (comp w') = alice
    /\ App.render (comp w') = App.LoggedIn alice
    /\ map authorization (issued (pf := up) (CallListUsers acme) w')
       = [Some (lit "Bearer T")].
Proof. eexists. repeat split; reflexivity. Qed.

(** The same after a login that stored the session of alice. *)
Example alice_logged_in :
  exists w',
    App.handleLoginSuccess (pf := up)
      (mkWorld (App.mkState VNull false) (env alice_session)) = (Ret tt, w')
    /\ App.render (comp w') = App.LoggedIn alice
    /\ map authorization (issued (pf := up) (CallListUsers acme) w')
       = [Some (lit "Bearer T")].
Proof. eexists. repeat split; reflexivity. Qed.

(** C4, counterexample: after a logout the request for the organisations
    carries an Authorization header, with the empty string as value. *)
Lemma logout_leaves_empty_header :
  map authorization
    (issued (pf := up) CallListOrgs
       (snd (App.handleLogout alice_session)))
  = [Some []]
  /\ ~ authorization_as_claimed (pf := up) (S := App.State).
Proof.
  split; [reflexivity|].
  intros H. specialize (H alice_session VNull CallListOrgs).
  apply Forall_cons in H as [H _]. discriminate H.
Qed.

(** A viewer's dashboard after its mount effect: no form is open and the
    create-organisation button is not on screen. *)
Lemma role_gating_witness :
  let w := snd (Dashboard.handle (pf := up) Dashboard.Mount
                  (mkWorld Dashboard.initial empty_env)) in
  Dashboard.isAdmin bob = false
  /\ Dashboard.showCreateOrgModal (comp w) = false
  /\ Dashboard.showCreateUserModal (comp w) = false
  /\ Dashboard.showUserManagementModal (comp w) = false.
Proof.
  intros w.
  assert (Hr : Dashboard.reachable (pf := up) bob w).
  { eapply Dashboard.reach_step; [apply Dashboard.reach_mount|].
    eapply Dashboard.step_event with (ev := Dashboard.Mount);
      [exact I|reflexivity]. }
  destruct (role_gating (pf := up) bob w Hr) as [Hadmin Hviewer].
  destruct Hadmin as (H1 & H2 & _).
  { intros H. vm_compute in H. discriminate H. }
  destruct (Hviewer eq_refl) as (H3 & H4 & _).
  repeat split; assumption.
Defined.

(** The scenario of the spec: bob is deleted from the table of acme; alice
    and carol stay, in this order. *)
Lemma delete_removes_exactly_witness :
  UserManagementModal.users
    (fst (comp (snd (UserManagementModal.handleDeleteUser (pf := up) (P := unit)
                       table acme (mret tt) (lit "bob")
                       (mkWorld (table, tt) empty_env)))))
  = VArr [alice; carol].
Proof.
  apply (delete_removes_exactly (pf := up) table acme (mret tt) (lit "bob")
           [alice; bob; carol] (mkWorld (table, tt) empty_env)).
  - reflexivity.
  - repeat constructor.
  - reflexivity.
  - eexists. reflexivity.
Defined.


(** The backend answers [{}]: the table that showed three users and the
    dashboard show empty lists. It answers [null]: the table keeps its
    three users. *)
Lemma fetch_on_malformed_response_witness :
  (exists w',
     UserManagementModal.fetchUsers (pf := up) (P := unit) acme
       (mkWorld (table, tt) empty_env) = (Ret tt, w')
     /\ UserManagementModal.users (fst (comp w')) = VArr [])
  /\ (exists w',
        Dashboard.fetchOrgs (pf := up) (mkWorld Dashboard.initial empty_env)
        = (Ret tt, w')
        /\ Dashboard.orgs (comp w') = VArr [])
  /\ (exists w',
        UserManagementModal.fetchUsers
          (pf := Fixture.platform (Ret VNull) true) (P := unit) acme
          (mkWorld (table, tt) empty_env) = (Ret tt, w')
        /\ UserManagementModal.users (fst (comp w'))
           = UserManagementModal.users table
        /\ UserManagementModal.error (fst (comp w'))
           = VStr (lit "Failed to load users")).
Proof.
  split; [|split].
  - apply (proj1 (proj1 (fetch_on_malformed_response (pf := up) (P := unit)))
             acme (VObj []) (mkWorld (table, tt) empty_env));
      reflexivity.
  - apply (proj2 (proj1 (fetch_on_malformed_response (pf := up) (P := unit)))
             (VObj []) (mkWorld Dashboard.initial empty_env));
      reflexivity.
  - apply (proj1 (proj2 (fetch_on_malformed_response
                           (pf := Fixture.platform (Ret VNull) true)
                           (P := unit)))
             acme VNull (mkWorld (table, tt) empty_env));
      reflexivity.
Defined.


(** * Further properties of the console *)

(** ** The session *)

Section SessionMore.
Context {pf : Platform}.
Import App.

(** X1. Whatever the storage holds and whatever [JSON.parse] does with it,
    [restore] returns without raising, ends the loading state and sends no
    request. *)
Theorem restore_always_returns (w : World State) :
  exists w',
    restore w = (Ret tt, w')
    /\ loading (comp w') = false
    /\ sent (env w') = sent (env w).
Proof.
  unfold restore, Api.setToken. unfold_m.
  destruct (truthy (item (env w) (lit "user"))
            && truthy (item (env w) (lit "token"))).
  - destruct (JSON_parse (to_string (item (env w) (lit "user"))));
      eexists; repeat split; reflexivity.
  - eexists. repeat split; reflexivity.
Qed.

(** X2. When both entries are stored and the user entry parses, [restore]
    sets the user to the parsed value, gives the stored token to the HTTP
    client as bearer and leaves the storage as it is. The dashboard is shown
    when the parsed value is truthy; when it is falsy (the text [null], say)
    the login screen is shown although the token is in use. *)
Theorem restore_parsed_session (w : World State) (parsed : JsValue) :
  complete (env w) = true ->
  JSON_parse (to_string (item (env w) (lit "user"))) = Ret parsed ->
  exists w',
    restore w = (Ret tt, w')
    /\ user (comp w') = parsed
    /\ render (comp w')
       = (if truthy parsed then LoggedIn parsed else LoginScreen)
    /\ axios_common (env w') !! lit "Authorization"
       = Some (lit "Bearer " ++ to_string (item (env w) (lit "token")))
    /\ localStorage (env w') = localStorage (env w).
Proof.
  intros C Hp. rewrite (restore_session w parsed C Hp).
  eexists. split; [reflexivity|]. simpl.
  split; [reflexivity|]. split; [reflexivity|].
  split; [apply lookup_insert_eq|reflexivity].
Qed.

(** X3. [handleLoginSuccess] does nothing when an entry is missing or
    empty. When both are there and the user entry is not JSON it raises the
    error of [JSON.parse] to its caller and changes nothing: unlike
    [restore] it neither catches the error nor clears the storage. *)
Theorem handleLoginSuccess_without_session (w : World State) :
  (complete (env w) = false -> handleLoginSuccess w = (Ret tt, w))
  /\ (forall err,
        complete (env w) = true ->
        JSON_parse (to_string (item (env w) (lit "user"))) = Throw err ->
        handleLoginSuccess w = (Throw err, w)).
Proof.
  split.
  - intros C. unfold handleLoginSuccess. unfold_m.
    fold (complete (env w)). rewrite C. reflexivity.
  - intros err C Hp. unfold handleLoginSuccess. unfold_m.
    fold (complete (env w)). rewrite C, Hp. reflexivity.
Qed.

End SessionMore.

(** ** The HTTP client *)

Section ClientMore.
Context {pf : Platform} {S : Type}.

(** X5. [setToken] writes the Authorization entry of the default headers
    and nothing else: the other default headers, the storage, the requests
    sent and the component are as before; and of two calls the later one
    decides. *)
Theorem setToken_overwrites (w : World S) (t1 t2 : JsValue) :
  let w1 := snd (Api.setToken t1 w) in
  delete (lit "Authorization") (axios_common (env w1))
  = delete (lit "Authorization") (axios_common (env w))
  /\ localStorage (env w1) = localStorage (env w)
  /\ sent (env w1) = sent (env w)
  /\ comp w1 = comp w
  /\ Api.setToken t2 w1 = Api.setToken t2 w.
Proof.
  unfold Api.setToken. unfold_m. simpl.
  split; [apply delete_insert_eq|].
  repeat split. unfold set_axios_common. simpl.
  rewrite insert_insert_eq. reflexivity.
Qed.

(** X6. A call of the API touches neither the component nor the storage
    nor the default headers; it appends to the requests sent, and at most one
    request. *)
Theorem api_call_frame (c : ApiCall) (w : World S) :
  let w' := snd (perform c w) in
  comp w' = comp w
  /\ localStorage (env w') = localStorage (env w)
  /\ axios_common (env w') = axios_common (env w)
  /\ sent (env w') = sent (env w) ++ issued c w
  /\ (length (issued c w) <= 1)%nat.
Proof.
  assert (R : forall m u x b,
            let w' := snd (Api.axios_request (S := S) m u x b w) in
            comp w' = comp w
            /\ localStorage (env w') = localStorage (env w)
            /\ axios_common (env w') = axios_common (env w)
            /\ sent (env w')
               = sent (env w)
                 ++ drop (length (sent (env w))) (sent (env w'))
            /\ (length (drop (length (sent (env w))) (sent (env w')))
                <= 1)%nat).
  { intros m u x b. simpl. rewrite drop_app_length. repeat split. simpl. lia. }
  assert (N : comp w = comp w
              /\ localStorage (env w) = localStorage (env w)
              /\ axios_common (env w) = axios_common (env w)
              /\ sent (env w)
                 = sent (env w) ++ drop (length (sent (env w))) (sent (env w))
              /\ (length (drop (length (sent (env w))) (sent (env w)))
                  <= 1)%nat).
  { rewrite drop_all. rewrite app_nil_r. repeat split. simpl. lia. }
  unfold issued.
  destruct c as [u p| |i n|o u p r|o|o u]; simpl.
  - apply R.
  - apply R.
  - apply R.
  - unfold Api.createUser. unfold_m.
    destruct (encodeURIComponent o); [apply R|apply N].
  - unfold Api.listUsers. unfold_m.
    destruct (encodeURIComponent o); [apply R|apply N].
  - unfold Api.deleteUser. unfold_m.
    destruct (encodeURIComponent o); [|apply N].
    destruct (encodeURIComponent u); [apply R|apply N].
Qed.

Lemma api_call_unencodable_aux (org_id : JsValue) (e : JsValue)
    (w : World S) :
  (encodeURIComponent org_id = Throw e ->
   (forall u p r, Api.createUser org_id u p r w = (Throw e, w))
   /\ Api.listUsers org_id w = (Throw e, w)
   /\ (forall u, Api.deleteUser org_id u w = (Throw e, w)))
  /\ (forall o u,
        encodeURIComponent org_id = Ret o ->
        encodeURIComponent u = Throw e ->
        Api.deleteUser org_id u w = (Throw e, w)).
Proof.
  split.
  - intros H. unfold Api.createUser, Api.listUsers, Api.deleteUser.
    unfold_m. rewrite H. repeat split.
  - intros o u Ho Hu. unfold Api.deleteUser. unfold_m.
    rewrite Ho, Hu. reflexivity.
Qed.

(** X7. When an identifier cannot be encoded for the address, the call
    raises the error of [encodeURIComponent] and sends nothing: so for the
    organisation id of [createUser], [listUsers] and [deleteUser], and for
    the user name of [deleteUser]. *)
Theorem api_call_unencodable (org_id : JsValue) (e : JsValue)
    (w : World S) :
  (encodeURIComponent org_id = Throw e ->
   (forall u p r, Api.createUser org_id u p r w = (Throw e, w))
   /\ Api.listUsers org_id w = (Throw e, w)
   /\ (forall u, Api.deleteUser org_id u w = (Throw e, w)))
  /\ (forall o u,
        encodeURIComponent org_id = Ret o ->
        encodeURIComponent u = Throw e ->
        Api.deleteUser org_id u w = (Throw e, w)).
Proof. apply api_call_unencodable_aux. Qed.

End ClientMore.

(** ** The creation forms *)

(** [finally] with an update of the component's own state: the update is
    made on whatever world the body ends in, and the body's outcome stands. *)
Lemma try_finally_own {S P A} (m : M (S * P) A) (f : S -> S)
    (w : World (S * P)) :
  try_finally m (own f) w
  = (fst (m w),
     mkWorld (f (fst (comp (snd (m w)))), snd (comp (snd (m w))))
       (env (snd (m w)))).
Proof.
  unfold try_finally. unfold_m. destruct (m w) as [r w1]. reflexivity.
Qed.

Lemma bind_own {S P B} (f : S -> S) (k : unit -> M (S * P) B)
    (w : World (S * P)) :
  bind (own f) k w
  = k tt (mkWorld (f (fst (comp w)), snd (comp w)) (env w)).
Proof. reflexivity. Qed.

(** A read on a value that is neither [undefined] nor [null] gives what
    the optional read gives. *)
Lemma get_prop_non_nullish (v : JsValue) (p : PropName) :
  nullish v = false -> get_prop v p = Some (opt_prop v p).
Proof. destruct v; try discriminate; reflexivity. Qed.

(** The value a creation form shows for an error that is an object. *)
Lemma form_error_value {S} (err : JsValue) (fallback : jsstring)
    (w : World S) :
  nullish err = false ->
  form_error err fallback w
  = (match detail_of err with
     | VArr l =>
         match detail_messages l with
         | Some msgs => Ret (VStr (array_join (lit ", ") msgs))
         | None => Throw TypeError
         end
     | d => Ret (if truthy d then d else VStr fallback)
     end, w).
Proof.
  intros Hn. unfold form_error, detail_of. unfold_m.
  rewrite (get_prop_non_nullish err p_response Hn). cbv zeta.
  destruct (opt_prop (opt_prop (opt_prop err p_response) p_data) p_detail)
    as [| | | | |l|]; try reflexivity.
  destruct (detail_messages l); reflexivity.
Qed.

Lemma form_error_fallback {S} (err : JsValue) (fallback : jsstring)
    (w : World S) :
  nullish err = false ->
  truthy (detail_of err) = false ->
  form_error err fallback w = (Ret (VStr fallback), w).
Proof.
  intros Hn Hd. rewrite (form_error_value err fallback w Hn).
  destruct (detail_of err) as [| | | | |l|]; try discriminate Hd;
    cbv zeta; rewrite ?Hd; reflexivity.
Qed.

Section CreateOrgMore.
Context {pf : Platform} {P : Type}.
Import CreateOrgModal.

Lemma createOrg_run {S} (i n : jsstring) (w : World S) :
  Api.createOrg (VStr i) (VStr n) w
  = (backend (sent (env w)) (create_org_request (env w) i n),
     mkWorld (comp w) (with_sent (create_org_request (env w) i n) (env w))).
Proof.
  unfold Api.createOrg, Api.axios_request, create_org_request, with_sent.
  rewrite (left_id_L ∅ (∪)). reflexivity.
Qed.

(** X8. A submission that passes the check sends the id and the name as
    they were entered, not trimmed, in one POST to /admin/orgs. When that
    call is rejected nothing else is sent, the parent's functions are not
    called, the id and the name stay in the form, and the form is not left
    in its loading state. *)
Theorem create_org_rejected
    (snap : State) (onSuccess onClose : M P unit) (err : JsValue)
    (w : World (State * P)) :
  forallb is_white_space (orgId snap) = false ->
  forallb is_white_space (orgName snap) = false ->
  backend (sent (env w))
    (create_org_request (env w) (orgId snap) (orgName snap)) = Throw err ->
  let w' := snd (handleSubmit snap onSuccess onClose w) in
  env w'
  = with_sent (create_org_request (env w) (orgId snap) (orgName snap)) (env w)
  /\ snd (comp w') = snd (comp w)
  /\ orgId (fst (comp w')) = orgId (fst (comp w))
  /\ orgName (fst (comp w')) = orgName (fst (comp w))
  /\ loading (fst (comp w')) = false.
Proof.
  intros Eu En Hb. unfold handleSubmit. rewrite !is_empty_trim, Eu, En.
  unfold_m. cbn [orb]. rewrite createOrg_run. simpl. rewrite Hb.
  match goal with |- context [form_error err ?fb ?w0] =>
    destruct (form_error_world err fb w0) as [[v|e'] ->] end;
    repeat split.
Qed.

(** X9. What the form shows after a rejected call, the error being an
    object. Without a truthy [detail] in the response data (no response at
    all, as for a network error, included) it shows "Failed to create
    organization"; a truthy [detail] that is not an array is shown as it is;
    an array of validation errors is shown as their messages joined by a
    comma and a space, so that an empty array shows no error at all. *)
Theorem create_org_rejection_shown
    (snap : State) (onSuccess onClose : M P unit) (err : JsValue)
    (w : World (State * P)) :
  forallb is_white_space (orgId snap) = false ->
  forallb is_white_space (orgName snap) = false ->
  backend (sent (env w))
    (create_org_request (env w) (orgId snap) (orgName snap)) = Throw err ->
  nullish err = false ->
  let shown := error (fst (comp (snd (handleSubmit snap onSuccess onClose w))))
  in
  (truthy (detail_of err) = false ->
   shown = VStr (lit "Failed to create organization"))
  /\ (truthy (detail_of err) = true ->
      (forall l, detail_of err <> VArr l) ->
      shown = detail_of err)
  /\ (forall l msgs,
        detail_of err = VArr l ->
        detail_messages l = Some msgs ->
        shown = VStr (array_join (lit ", ") msgs))
  /\ (detail_of err = VArr [] ->
      displayed_error
        (fst (comp (snd (handleSubmit snap onSuccess onClose w)))) = None).
Proof.
  intros Eu En Hb Hn. unfold handleSubmit. rewrite !is_empty_trim, Eu, En.
  unfold_m. cbn [orb]. rewrite createOrg_run. simpl. rewrite Hb.
  rewrite (form_error_value err _ _ Hn).
  destruct (detail_of err) as [| | | | |l|] eqn:D; simpl.
  all: repeat split; try discriminate; try reflexivity.
  all: try (intros _ Hl; try reflexivity; exfalso; eapply Hl; reflexivity).
  all: try (intros Ht; rewrite Ht; reflexivity).
  all: try (intros l' msgs [= <-] ->; reflexivity).
  all: try (intros [= ->]; reflexivity).
  all: try (intros Ht Hl; rewrite Ht; reflexivity).
Qed.

(** X10. When the check passes, the call succeeds and the two functions of
    the parent return, the submission ends normally: [onSuccess] was run
    right after the request, then [onClose], and the form is empty again,
    shows no error and is not loading. *)
Theorem create_org_created
    (snap : State) (onSuccess onClose : M P unit) (data : JsValue)
    (w : World (State * P)) (p1 p2 : World P) :
  forallb is_white_space (orgId snap) = false ->
  forallb is_white_space (orgName snap) = false ->
  backend (sent (env w))
    (create_org_request (env w) (orgId snap) (orgName snap)) = Ret data ->
  onSuccess
    (mkWorld (snd (comp w))
       (with_sent (create_org_request (env w) (orgId snap) (orgName snap))
          (env w))) = (Ret tt, p1) ->
  onClose p1 = (Ret tt, p2) ->
  handleSubmit snap onSuccess onClose w
  = (Ret tt,
     mkWorld ({| orgId := []; orgName := []; error := VStr [];
                 loading := false |}, comp p2) (env p2)).
Proof.
  intros Eu En Hb Hs Hc. destruct p1 as [c1 e1]. unfold handleSubmit.
  rewrite !is_empty_trim, Eu, En.
  unfold_m. cbn [orb]. rewrite createOrg_run. simpl. rewrite Hb, Hs. simpl.
  rewrite Hc. reflexivity.
Qed.

End CreateOrgMore.

Section FormsMore.
Context {pf : Platform} {P : Type}.

(** X11. However a submission of either creation form ends (rejected by
    the check, by the backend, or with a function of the parent or the
    reading of the error raising), the form is not left in its loading
    state. *)
Theorem forms_never_left_loading :
  (forall (snap : CreateOrgModal.State) (onSuccess onClose : M P unit)
          (w : World (CreateOrgModal.State * P)),
      CreateOrgModal.loading
        (fst (comp (snd (CreateOrgModal.handleSubmit snap onSuccess onClose
                           w)))) = false)
  /\ (forall (snap : CreateUserModal.State) (orgId : JsValue)
             (onSuccess onClose : M P unit)
             (w : World (CreateUserModal.State * P)),
        CreateUserModal.loading
          (fst (comp (snd (CreateUserModal.handleSubmit snap orgId onSuccess
                             onClose w)))) = false).
Proof.
  split.
  - intros snap onSuccess onClose w.
    unfold CreateOrgModal.handleSubmit. unfold mbind, M_bind.
    rewrite !bind_own, try_finally_own. reflexivity.
  - intros snap orgId onSuccess onClose w.
    unfold CreateUserModal.handleSubmit. unfold mbind, M_bind.
    rewrite !bind_own, try_finally_own. reflexivity.
Qed.

End FormsMore.

(** ** The user table *)

Section UserTableMore.
Context {pf : Platform} {P : Type}.
Import UserManagementModal.

(** The filter of the deletion raises exactly when a row is [undefined] or
    [null]. *)
Lemma filter_users_None_iff (u : jsstring) (l : list JsValue) :
  filter_users u l = None <-> Exists (fun x => nullish x = true) l.
Proof.
  induction l as [|x l IH]; simpl.
  - split; [discriminate|]. intros H. inversion H.
  - destruct (get_prop x p_username) as [n|] eqn:E.
    + assert (Hx : nullish x = false) by (destruct x; try discriminate;
                                          reflexivity).
      destruct (filter_users u l) as [rest|].
      * split; [discriminate|]. intros H. inversion H as [? ? Hn|? ? Hn].
        -- congruence.
        -- apply IH in Hn. discriminate.
      * split; [|reflexivity]. intros _. right. apply IH. reflexivity.
    + split; [|reflexivity]. intros _. left.
      destruct x; try discriminate; reflexivity.
Qed.

(** X12. [filter_users], the filter of the deletion, raises exactly when a
    row is [undefined] or [null]. When it returns, what it returns are the
    rows not named [u], in their order; no row named [u] is left; filtering
    the result again changes nothing; and a list without a row named [u] is
    returned as it is. *)
Theorem filter_users_result (u : jsstring) (l : list JsValue) :
  (filter_users u l = None <-> Exists (fun x => nullish x = true) l)
  /\ (forall l',
        filter_users u l = Some l' ->
        l' = List.filter (other_than u) l
        /\ Forall (fun x => opt_prop x p_username <> VStr u) l'
        /\ filter_users u l' = Some l'
        /\ (Forall (fun x => opt_prop x p_username <> VStr u) l -> l' = l)).
Proof.
  split; [apply filter_users_None_iff|].
  intros l' H.
  assert (Hrows : Forall (fun x => nullish x = false) l).
  { apply Forall_forall. intros x Hx.
    destruct (nullish x) eqn:N; [|reflexivity].
    assert (E : Exists (fun y => nullish y = true) l).
    { apply Exists_exists. exists x. split; [exact Hx|exact N]. }
    apply (filter_users_None_iff u) in E. congruence. }
  rewrite (filter_users_rows u l Hrows) in H. injection H as <-.
  assert (Hname : forall x, other_than u x = true
                            <-> opt_prop x p_username <> VStr u).
  { intros x. unfold other_than, strict_eq_str.
    destruct (opt_prop x p_username) as [| | | |s| |];
      try (split; [discriminate|reflexivity]).
    rewrite negb_true_iff, bool_decide_eq_false.
    split; [intros Hs [= ->]; apply Hs; reflexivity
           |intros Hs ->; apply Hs; reflexivity]. }
  split; [reflexivity|]. split; [|split].
  - apply Forall_forall. intros x Hx.
    apply list_elem_of_In, filter_In in Hx as [_ Hx]. apply Hname, Hx.
  - rewrite filter_users_rows.
    + f_equal. clear Hrows. induction l as [|x l IH]; [reflexivity|].
      simpl. destruct (other_than u x) eqn:O; [|exact IH].
      simpl. rewrite O, IH. reflexivity.
    + apply Forall_forall. intros x Hx.
      apply list_elem_of_In, filter_In in Hx as [Hx _].
      rewrite Forall_forall in Hrows. apply Hrows, list_elem_of_In, Hx.
  - intros Hall. clear Hrows. induction Hall as [|x l Hx _ IH];
      [reflexivity|].
    simpl. apply Hname in Hx. rewrite Hx, IH. reflexivity.
Qed.

(** X14. The table is never left busy: after [fetchUsers] it is not
    loading, and after [handleDeleteUser] no row is marked as being deleted
    when the prompt was confirmed (declined, the mark is what it was),
    whatever the backend, the parent's function and the reading of the
    error do. *)
Theorem user_table_never_left_busy :
  (forall (orgId : JsValue) (w : World (State * P)),
      loading (fst (comp (snd (fetchUsers orgId w)))) = false)
  /\ (forall (snap : State) (orgId : JsValue) (onUserDeleted : M P unit)
             (u : jsstring) (w : World (State * P)),
        deleting
          (fst (comp (snd (handleDeleteUser snap orgId onUserDeleted u w))))
        = if window_confirm (confirm_message u) then VNull
          else deleting (fst (comp w))).
Proof.
  split.
  - intros orgId w. unfold fetchUsers. rewrite try_finally_own. reflexivity.
  - intros snap orgId onUserDeleted u w. unfold handleDeleteUser.
    destruct (window_confirm (confirm_message u)); cbn [negb].
    + rewrite try_finally_own. reflexivity.
    + reflexivity.
Qed.

(** X15. [fetchUsers] returns whenever the call succeeds with data on
    which [users] can be read, or is rejected with an error that is an
    object. On success the list is the [users] of the data if that is truthy
    and the error of an earlier fetch is cleared; on rejection the list stays
    and the error shown is the [detail] of the response data if that is
    truthy, "Failed to load users" if not. *)
Theorem fetchUsers_outcomes (orgId : JsValue) (w : World (State * P)) :
  (forall data listed,
      fst (Api.listUsers orgId w) = Ret data ->
      get_prop data p_users = Some listed ->
      exists w',
        fetchUsers orgId w = (Ret tt, w')
        /\ users (fst (comp w')) = (if truthy listed then listed else VArr [])
        /\ error (fst (comp w')) = VStr [])
  /\ (forall err,
        fst (Api.listUsers orgId w) = Throw err ->
        nullish err = false ->
        exists w',
          fetchUsers orgId w = (Ret tt, w')
          /\ users (fst (comp w')) = users (fst (comp w))
          /\ error (fst (comp w'))
             = if truthy (detail_of err) then detail_of err
               else VStr (lit "Failed to load users")).
Proof.
  pose proof (listUsers_env_only orgId) as F.
  split.
  - intros data listed Hd Hg. unfold fetchUsers. unfold_m. simpl.
    rewrite (env_only_run _ F w _ (env w) eq_refl). rewrite Hd, Hg.
    eexists. repeat split.
  - intros err Hd Hn. unfold fetchUsers, error_detail. unfold_m. simpl.
    rewrite (env_only_run _ F w _ (env w) eq_refl). rewrite Hd.
    rewrite (get_prop_non_nullish err p_response Hn).
    eexists. repeat split.
Qed.

End UserTableMore.

(** ** The dashboard *)

Section DashboardMore.
Context {pf : Platform}.
Import Dashboard.

Lemma listOrgs_run {S} (w : World S) :
  Api.listOrgs w
  = (backend (sent (env w)) (orgs_request (env w)),
     mkWorld (comp w) (with_sent (orgs_request (env w)) (env w))).
Proof.
  unfold Api.listOrgs, Api.axios_request, orgs_request, with_sent.
  rewrite (left_id_L ∅ (∪)). reflexivity.
Qed.

Lemma fetchOrgs_effect (w : World State) :
  exists w',
    fetchOrgs w = (Ret tt, w')
    /\ env w' = with_sent (orgs_request (env w)) (env w)
    /\ forms (comp w') = forms (comp w)
    /\ loading (comp w') = false.
Proof.
  unfold fetchOrgs. unfold_m. rewrite listOrgs_run. cbn [env comp].
  destruct (backend (sent (env w)) (orgs_request (env w))) as [data|err].
  - destruct (get_prop data p_orgs) as [listed|];
      eexists; repeat split; reflexivity.
  - eexists. repeat split; reflexivity.
Qed.

(** X16. The three functions with which the dashboard refreshes its list
    ([fetchOrgs], given to the user table as [onUserDeleted], and the two
    success functions of the creation forms) never raise, whatever the
    backend does. Each sends exactly one GET for the organisations, ends with
    the dashboard not loading, and leaves the selection and the other forms
    alone; the success functions close their own form. *)
Theorem dashboard_refresh (w : World State) :
  (exists w',
      onUserDeleted w = (Ret tt, w')
      /\ env w' = with_sent (orgs_request (env w)) (env w)
      /\ forms (comp w') = forms (comp w)
      /\ loading (comp w') = false)
  /\ (exists w',
        handleCreateOrgSuccess w = (Ret tt, w')
        /\ env w' = with_sent (orgs_request (env w)) (env w)
        /\ forms (comp w')
           = (false, showCreateUserModal (comp w),
              showUserManagementModal (comp w), selectedOrgId (comp w))
        /\ loading (comp w') = false)
  /\ (exists w',
        handleCreateUserSuccess w = (Ret tt, w')
        /\ env w' = with_sent (orgs_request (env w)) (env w)
        /\ forms (comp w')
           = (showCreateOrgModal (comp w), false,
              showUserManagementModal (comp w), selectedOrgId (comp w))
        /\ loading (comp w') = false).
Proof.
  destruct (fetchOrgs_effect w) as (w1 & E & He & Hf & Hl).
  split; [|split].
  - exists w1. unfold onUserDeleted. repeat split; assumption.
  - unfold handleCreateOrgSuccess. unfold_m. rewrite E.
    eexists. split; [reflexivity|]. cbn [env comp].
    split; [exact He|]. unfold forms in *. simpl.
    injection Hf as _ -> -> ->. split; [reflexivity|exact Hl].
  - unfold handleCreateUserSuccess. unfold_m. rewrite E.
    eexists. split; [reflexivity|]. cbn [env comp].
    split; [exact He|]. unfold forms in *. simpl.
    injection Hf as -> _ -> ->. split; [reflexivity|exact Hl].
Qed.

(** X17. What [fetchOrgs] does to the list and to the error. When the call
    succeeds with data on which [orgs] can be read, the list is the [orgs] of
    the data if that is truthy and the empty list if not, and the error is
    what it was: an error of an earlier fetch stays on display. When the
    call is rejected the list stays and the error is "Failed to load
    organizations". *)
Theorem fetchOrgs_outcomes (w : World State) :
  (forall data listed,
      backend (sent (env w)) (orgs_request (env w)) = Ret data ->
      get_prop data p_orgs = Some listed ->
      orgs (comp (snd (fetchOrgs w)))
      = (if truthy listed then listed else VArr [])
      /\ error (comp (snd (fetchOrgs w))) = error (comp w))
  /\ (forall err,
        backend (sent (env w)) (orgs_request (env w)) = Throw err ->
        orgs (comp (snd (fetchOrgs w))) = orgs (comp w)
        /\ error (comp (snd (fetchOrgs w)))
           = lit "Failed to load organizations").
Proof.
  split.
  - intros data listed Hb Hg. unfold fetchOrgs. unfold_m.
    rewrite listOrgs_run. cbn [env comp]. rewrite Hb, Hg. split; reflexivity.
  - intros err Hb. unfold fetchOrgs. unfold_m.
    rewrite listOrgs_run. cbn [env comp]. rewrite Hb. split; reflexivity.
Qed.

Lemma rows_controls (user : JsValue) (l : list JsValue) :
  Forall (fun org => nullish org = false) l ->
  mapM (row_controls user) l
  = Some (map (fun org => if isAdmin user || isEditor user
                          then row_buttons org else []) l).
Proof.
  induction 1 as [|org l Horg _ IH]; [reflexivity|].
  cbn [mapM map]. rewrite IH. unfold row_controls at 1.
  rewrite (get_prop_non_nullish org p_org_id Horg). reflexivity.
Qed.

Lemma rows_controls_throw (user : JsValue) (l : list JsValue) :
  Exists (fun org => nullish org = true) l ->
  mapM (row_controls user) l = None.
Proof.
  induction 1 as [org l Horg | org l _ IH].
  - cbn [mapM]. unfold row_controls.
    destruct org; try discriminate; reflexivity.
  - cbn [mapM]. rewrite IH.
    destruct (row_controls user org); reflexivity.
Qed.

(** X18. What is on screen once the dashboard has loaded an array of
    organisations. If no row is [undefined] or [null]: for an admin the
    create-organisation button and then, row by row, the two user buttons of
    each organisation; for an editor the user buttons only; for anybody else
    nothing. If a row is [undefined] or [null] the render throws. *)
Theorem controls_loaded (user : JsValue) (s : State) (l : list JsValue) :
  loading s = false ->
  orgs s = VArr l ->
  (Forall (fun org => nullish org = false) l ->
   controls user s
   = Some (if isAdmin user then CreateOrganization :: flat_map row_buttons l
           else if isEditor user then flat_map row_buttons l
           else []))
  /\ (Exists (fun org => nullish org = true) l -> controls user s = None).
Proof.
  intros Hl Ho. unfold controls. rewrite Hl, Ho. cbn [org_rows]. split.
  - intros Hrows. rewrite (rows_controls user l Hrows). cbn [mbind option_bind].
    f_equal. destruct (isAdmin user); cbn [orb app].
    + f_equal. clear. induction l as [|org l IH]; [reflexivity|].
      cbn [map concat flat_map]. rewrite IH. reflexivity.
    + destruct (isEditor user).
      * clear. induction l as [|org l IH]; [reflexivity|].
        cbn [map concat flat_map]. rewrite IH. reflexivity.
      * clear. induction l as [|org l IH]; [reflexivity|].
        cbn [map concat app]. exact IH.
  - intros Hbad. rewrite (rows_controls_throw user l Hbad). reflexivity.
Qed.

End DashboardMore.

(** ** The role selector *)

(** X19. The ceiling of the role selector, for every value the creator's
    role can have: 'admin' is offered to an admin and to nobody else,
    'editor' to an admin and to an editor and to nobody else. *)
Theorem offered_roles_ceiling (v : JsValue) :
  (In (lit "admin") (CreateUserModal.offered_roles v)
   <-> v = VStr (lit "admin"))
  /\ (In (lit "editor") (CreateUserModal.offered_roles v)
      <-> v = VStr (lit "admin") \/ v = VStr (lit "editor")).
Proof.
  unfold CreateUserModal.offered_roles, CreateUserModal.getAvailableRoles.
  destruct v as [| | | |s| |];
    try (cbn [strict_eq_str map In CreateUserModal.value]; split; split;
         [intros [H|[]]; vm_compute in H; discriminate H
         |intros [=]
         |intros [H|[]]; vm_compute in H; discriminate H
         |intros [[=]|[=]]]).
  unfold strict_eq_str.
  destruct (decide (s = lit "admin")) as [-> | A].
  { rewrite bool_decide_true by reflexivity.
    cbn [map In CreateUserModal.value]. split; split.
    - reflexivity.
    - intros _. right. right. left. reflexivity.
    - intros _. left. reflexivity.
    - intros _. right. left. reflexivity. }
  rewrite (bool_decide_false _ A).
  destruct (decide (s = lit "editor")) as [-> | E].
  { rewrite bool_decide_true by reflexivity.
    cbn [map In CreateUserModal.value]. split; split.
    - intros [H|[H|[]]]; vm_compute in H; discriminate H.
    - intros H. vm_compute in H. discriminate H.
    - intros _. right. reflexivity.
    - intros _. right. left. reflexivity. }
  rewrite (bool_decide_false _ E).
  cbn [map In CreateUserModal.value]. split; split.
  - intros [H|[]]. vm_compute in H. discriminate H.
  - intros [= ->]. exfalso. apply A. reflexivity.
  - intros [H|[]]. vm_compute in H. discriminate H.
  - intros [[= ->]|[= ->]]; exfalso; [apply A|apply E]; reflexivity.
Qed.

(** ** An organisation id that cannot be encoded *)

Section CreateUserMore.
Context {pf : Platform} {P : Type}.
Import CreateUserModal.

(** X20. When the organisation id given to the create-user form cannot be
    encoded, a submission that passes the check sends nothing and does not
    call the parent; the error of [encodeURIComponent] is treated like a
    rejection: being an object without a truthy [detail], it makes the form
    show "Failed to create user", with the fields kept. *)
Theorem create_user_unencodable_org
    (snap : State) (orgId e : JsValue) (onSuccess onClose : M P unit)
    (w : World (State * P)) :
  forallb is_white_space (username snap) = false ->
  forallb is_white_space (password snap) = false ->
  encodeURIComponent orgId = Throw e ->
  nullish e = false ->
  truthy (detail_of e) = false ->
  handleSubmit snap orgId onSuccess onClose w
  = (Ret tt,
     mkWorld
       (setLoading false
          (setError (VStr (lit "Failed to create user"))
             (setLoading true (setError (VStr []) (fst (comp w))))),
        snd (comp w))
       (env w)).
Proof.
  intros Eu Ep He Hn Hd. unfold handleSubmit.
  rewrite !is_empty_trim, Eu, Ep. unfold_m. cbn [orb].
  rewrite (proj1 (proj1 (api_call_unencodable_aux orgId e _) He)).
  rewrite (form_error_fallback e _ _ Hn Hd). reflexivity.
Qed.

End CreateUserMore.

(** ** Restoring twice *)

Section RestoreTwice.
Context {pf : Platform}.
Import App.

Lemma item_set_axios_common (m : gmap jsstring jsstring) (e : Env)
    (k : jsstring) :
  item (set_axios_common m e) k = item e k.
Proof. reflexivity. Qed.

Lemma item_removed (e : Env) :
  item (set_localStorage
          (delete (lit "token")
             (localStorage
                (set_localStorage (delete (lit "user") (localStorage e)) e)))
          (set_localStorage (delete (lit "user") (localStorage e)) e))
    (lit "user") = VNull.
Proof.
  unfold item. cbn [localStorage set_localStorage].
  rewrite lookup_delete_ne by (intros H; vm_compute in H; discriminate H).
  rewrite lookup_delete_eq. reflexivity.
Qed.

(** X21. Running [restore] a second time changes nothing, whatever the
    storage holds: the effect may run more than once. *)
Theorem restore_idempotent (w : World State) :
  restore (snd (restore w)) = restore w.
Proof.
  unfold restore, Api.setToken. unfold_m.
  destruct (truthy (item (env w) (lit "user"))
            && truthy (item (env w) (lit "token"))) eqn:C.
  - destruct (JSON_parse (to_string (item (env w) (lit "user"))))
      as [parsed|err] eqn:Hp.
    + cbn [fst snd comp env]. rewrite !item_set_axios_common.
      rewrite C, Hp. cbn [fst snd comp env].
      unfold set_axios_common. cbn [axios_common localStorage sent].
      rewrite insert_insert_eq. reflexivity.
    + cbn [fst snd comp env]. rewrite item_removed.
      cbn [truthy andb]. unfold set_localStorage. reflexivity.
  - cbn [fst snd comp env]. rewrite C. reflexivity.
Qed.

End RestoreTwice.

(** ** Examples for the further properties *)

Import Scenarios.

(** The stored user is the text [null]: the login screen is shown and the
    token is in use all the same. *)
Lemma restore_parsed_session_witness :
  exists w',
    App.restore (pf := up) null_user = (Ret tt, w')
    /\ App.render (comp w') = App.LoginScreen
    /\ axios_common (env w') !! lit "Authorization" = Some (lit "Bearer T").
Proof.
  destruct (restore_parsed_session (pf := up) null_user VNull)
    as (w' & Hrun & _ & Hscreen & Hauth & _).
  - reflexivity.
  - reflexivity.
  - exists w'. split; [exact Hrun|]. split; [exact Hscreen|exact Hauth].
Defined.

(** After a login that stored a user entry that is not JSON the error
    reaches the caller; after one that stored no token nothing happens. *)
Lemma handleLoginSuccess_without_session_witness :
  App.handleLoginSuccess (pf := up) lone_user = (Ret tt, lone_user)
  /\ App.handleLoginSuccess (pf := up) broken_user
     = (Throw SyntaxError, broken_user).
Proof.
  split.
  - apply (proj1 (handleLoginSuccess_without_session (pf := up) lone_user)).
    reflexivity.
  - apply (proj2 (handleLoginSuccess_without_session (pf := up) broken_user)).
    + reflexivity.
    + reflexivity.
Defined.

(** An organisation id that is a lone surrogate: nothing is sent. *)
Lemma api_call_unencodable_witness :
  let w := mkWorld tt empty_env in
  Api.listUsers (pf := strict (Ret VNull)) (VStr lone_surrogate) w
  = (Throw URIError, w)
  /\ Api.deleteUser (pf := strict (Ret VNull)) acme (VStr lone_surrogate) w
     = (Throw URIError, w).
Proof.
  intros w. split.
  - apply (proj1 (api_call_unencodable (pf := strict (Ret VNull))
                    (VStr lone_surrogate) URIError w)).
    reflexivity.
  - apply (proj2 (api_call_unencodable (pf := strict (Ret VNull))
                    acme URIError w) (lit "acme") (VStr lone_surrogate));
      reflexivity.
Defined.

(** The organisation " acme " is refused by the backend: the id was sent
    with its blanks and stays in the form. *)
Lemma create_org_rejected_witness :
  let pf := refusing (VStr (lit "Organization already exists")) in
  let w := mkWorld (org_form, tt) empty_env in
  let w' := snd (CreateOrgModal.handleSubmit (pf := pf) org_form (mret tt)
                   (mret tt) w) in
  map body (sent (env w'))
  = [JsonBody (VObj [(lit "org_id", VStr (lit " acme "));
                     (lit "org_name", VStr (lit "ACME"))])]
  /\ CreateOrgModal.orgId (fst (comp w')) = lit " acme "
  /\ CreateOrgModal.loading (fst (comp w')) = false.
Proof.
  intros pf w w'.
  destruct (create_org_rejected (pf := pf) org_form (mret tt) (mret tt)
              (rejection (VStr (lit "Organization already exists"))) w)
    as (He & _ & Hi & _ & Hl); try reflexivity.
  fold w' in He, Hi, Hl. rewrite He.
  split; [reflexivity|]. split; [exact Hi|exact Hl].
Defined.

(** The backend refuses with an empty list of validation errors: the form
    shows nothing. It is not reachable: the form shows the fallback. *)
Lemma create_org_rejection_shown_witness :
  let w := mkWorld (org_form, tt) empty_env in
  CreateOrgModal.displayed_error
    (fst (comp (snd (CreateOrgModal.handleSubmit (pf := refusing (VArr []))
                       org_form (mret tt) (mret tt) w)))) = None
  /\ CreateOrgModal.error
       (fst (comp (snd (CreateOrgModal.handleSubmit (pf := down) org_form
                          (mret tt) (mret tt) w))))
     = VStr (lit "Failed to create organization").
Proof.
  intros w. split.
  - apply (create_org_rejection_shown (pf := refusing (VArr [])) org_form
             (mret tt) (mret tt) (rejection (VArr [])) w); reflexivity.
  - apply (create_org_rejection_shown (pf := down) org_form
             (mret tt) (mret tt) NetworkError w); reflexivity.
Defined.

(** The organisation is created from the dashboard of an admin: the list
    is asked for again, the form is closed and empty. *)
Lemma create_org_created_witness :
  let pf := answering (VObj []) in
  let open :=
    Dashboard.setShowCreateOrgModal true
      (Dashboard.setLoading false Dashboard.initial) in
  let w := mkWorld (org_form, open) empty_env in
  let close := modify (Dashboard.setShowCreateOrgModal false) in
  exists w',
    CreateOrgModal.handleSubmit (pf := pf) org_form
      (Dashboard.handleCreateOrgSuccess (pf := pf)) close w = (Ret tt, w')
    /\ fst (comp w') = CreateOrgModal.initial
    /\ Dashboard.showCreateOrgModal (snd (comp w')) = false
    /\ map method (sent (env w')) = [POST; GET].
Proof.
  intros pf open w close.
  pose (req := create_org_request (pf := pf) (env w)
                 (CreateOrgModal.orgId org_form)
                 (CreateOrgModal.orgName org_form)).
  pose (p1 := snd (Dashboard.handleCreateOrgSuccess (pf := pf)
                     (mkWorld open (with_sent req (env w))))).
  pose (p2 := snd (close p1)).
  eexists. split.
  - apply (create_org_created (pf := pf) org_form
             (Dashboard.handleCreateOrgSuccess (pf := pf)) close (VObj []) w
             p1 p2); reflexivity.
  - repeat split; reflexivity.
Defined.

(** Bob is filtered out of alice, bob, carol. *)
Lemma filter_users_result_witness :
  UserManagementModal.filter_users (lit "bob") [alice; bob; carol]
  = Some [alice; carol]
  /\ UserManagementModal.filter_users (lit "bob") [alice; carol]
     = Some [alice; carol].
Proof.
  split; [reflexivity|].
  apply (proj2 (filter_users_result (lit "bob") [alice; bob; carol])
           [alice; carol]).
  reflexivity.
Defined.

(** The users of acme are fetched; then the backend refuses. *)
Lemma fetchUsers_outcomes_witness :
  let listed := VObj [(lit "users", VArr [alice])] in
  let w := mkWorld (table, tt) empty_env in
  UserManagementModal.users
    (fst (comp (snd (UserManagementModal.fetchUsers (pf := answering listed)
                       acme w)))) = VArr [alice]
  /\ UserManagementModal.error
       (fst (comp (snd (UserManagementModal.fetchUsers
                          (pf := refusing (VStr (lit "Forbidden"))) acme w))))
     = VStr (lit "Forbidden").
Proof.
  intros listed w. split.
  - destruct (proj1 (fetchUsers_outcomes (pf := answering listed) acme w)
                listed (VArr [alice]) eq_refl eq_refl)
      as (w' & -> & Hu & _).
    exact Hu.
  - destruct (proj2 (fetchUsers_outcomes
                       (pf := refusing (VStr (lit "Forbidden"))) acme w)
                (rejection (VStr (lit "Forbidden"))) eq_refl eq_refl)
      as (w' & -> & _ & He).
    exact He.
Defined.

(** A dashboard that shows an error fetches the organisations with
    success: the error stays. Then the backend is not reachable. *)
Lemma fetchOrgs_outcomes_witness :
  let listed := VObj [(lit "orgs", VArr [acme_org])] in
  let s := Dashboard.setError (lit "Failed to load organizations")
             Dashboard.initial in
  let w := mkWorld s empty_env in
  (Dashboard.orgs (comp (snd (Dashboard.fetchOrgs (pf := answering listed) w)))
   = VArr [acme_org]
   /\ Dashboard.error
        (comp (snd (Dashboard.fetchOrgs (pf := answering listed) w)))
      = lit "Failed to load organizations")
  /\ Dashboard.orgs (comp (snd (Dashboard.fetchOrgs (pf := down) w)))
     = VArr [].
Proof.
  intros listed s w. split.
  - apply (proj1 (fetchOrgs_outcomes (pf := answering listed) w)
             listed (VArr [acme_org])); reflexivity.
  - apply (proj2 (fetchOrgs_outcomes (pf := down) w) NetworkError).
    reflexivity.
Defined.

(** Two organisations are loaded: what carol (admin), alice (editor) and
    bob (viewer) see. *)
Lemma controls_loaded_witness :
  Dashboard.controls carol loaded
  = Some [Dashboard.CreateOrganization;
          Dashboard.AddUser (VStr (lit "acme"));
          Dashboard.ManageUsers (VStr (lit "acme"));
          Dashboard.AddUser (VStr (lit "globex"));
          Dashboard.ManageUsers (VStr (lit "globex"))]
  /\ Dashboard.controls alice loaded
     = Some [Dashboard.AddUser (VStr (lit "acme"));
             Dashboard.ManageUsers (VStr (lit "acme"));
             Dashboard.AddUser (VStr (lit "globex"));
             Dashboard.ManageUsers (VStr (lit "globex"))]
  /\ Dashboard.controls bob loaded = Some [].
Proof.
  assert (Hrows : Forall (fun org => nullish org = false)
                    [acme_org; globex_org]) by (repeat constructor).
  split; [|split].
  - apply (proj1 (controls_loaded carol loaded [acme_org; globex_org]
                    eq_refl eq_refl) Hrows).
  - apply (proj1 (controls_loaded alice loaded [acme_org; globex_org]
                    eq_refl eq_refl) Hrows).
  - apply (proj1 (controls_loaded bob loaded [acme_org; globex_org]
                    eq_refl eq_refl) Hrows).
Defined.

(** The create-user form is given an organisation id that is a lone
    surrogate: nothing is sent and the fallback is shown. *)
Lemma create_user_unencodable_org_witness :
  let w := mkWorld (form, tt) empty_env in
  let w' := snd (CreateUserModal.handleSubmit (pf := strict (Ret VNull)) form
                   (VStr lone_surrogate) (mret tt) (mret tt) w) in
  sent (env w') = []
  /\ CreateUserModal.error (fst (comp w'))
     = VStr (lit "Failed to create user")
  /\ entered (fst (comp w')) = (lit "dave", lit "pw", lit "editor").
Proof.
  intros w w'. subst w'.
  rewrite (create_user_unencodable_org (pf := strict (Ret VNull)) form
             (VStr lone_surrogate) URIError (mret tt) (mret tt) w);
    try reflexivity.
  repeat split; reflexivity.
Defined.

(** C9, counterexample: the backend answers the request for the users of
    acme with [null]. Fetching returns, the three users stay on display and
    "Failed to load users" is shown. *)
Lemma null_response_keeps_list :
  lacks VNull p_users = true
  /\ (exists w',
        UserManagementModal.fetchUsers (pf := answering VNull) (P := unit)
          acme (mkWorld (table, tt) empty_env) = (Ret tt, w')
        /\ UserManagementModal.users (fst (comp w'))
           = VArr [alice; bob; carol]
        /\ UserManagementModal.error (fst (comp w'))
           = VStr (lit "Failed to load users"))
  /\ ~ fetch_total_as_claimed (pf := answering VNull) (P := unit).
Proof.
  split; [reflexivity|]. split.
  - eexists. repeat split; reflexivity.
  - intros [H _].
    destruct (H acme VNull (mkWorld (table, tt) empty_env) eq_refl eq_refl)
      as (w' & Hrun & Hu).
    injection Hrun as <-. discriminate Hu.
Qed.
